(** * Spacebin: document retrieval, response rendering and request decoding

    A shallow embedding of [internal/server/fetch.go] (the three retrieval
    handlers) and [internal/util/helpers.go] (field validation, body
    decoding, the JSON and HTML writers), followed by the properties the
    specification states about them.

    Go strings are byte strings: [string] with [String.length] as [len].
    Go [int] values are [Z].  Everything the handlers call outside these two
    files (the storage back end, [html/template], [encoding/json]'s lexer,
    the highlighter, the Markdown renderer, multipart parsing) is a field of
    a class, so every statement below holds for any implementation of it. *)

From Stdlib Require Import String Ascii List ZArith NArith Lia Bool DecimalString DecimalZ.
From stdpp Require Import base option gmap strings list.
Import ListNotations.
Open Scope string_scope.
Open Scope Z_scope.
Set Warnings "-register-all".


(** ** Package [strings], [slices], [fmt] *)

Module GoStrings.

(** [len(s)]. *)
Definition len (s : string) : Z := Z.of_nat (String.length s).

(** [strings.Split(s, sep)] for a one-byte separator, which is all the
    source passes (["."] and [";"]): the pieces between the separators, in
    order; a string without separator is returned as its only piece.  The
    result is never empty, so the first inner branch below is dead. *)
Fixpoint Split (s : string) (sep : ascii) : list string :=
  match s with
  | EmptyString => [EmptyString]
  | String c rest =>
      if Ascii.eqb c sep then EmptyString :: Split rest sep
      else match Split rest sep with
           | [] => [String c EmptyString]
           | p :: ps => String c p :: ps
           end
  end.

(** [l[i]] on a slice of strings.  Every index expression of the source is
    in range (see [Split_cons] and the guard [len(params) == 2]); the
    default is never observed. *)
Definition index (l : list string) (i : nat) : string := nth i l EmptyString.

(** [slices.Contains(l, x)]. *)
Definition Contains (l : list string) (x : string) : bool :=
  existsb (String.eqb x) l.

(** [%d] of [fmt]. *)
Definition itoa (n : Z) : string := NilZero.string_of_int (Z.to_int n).

(** [strings.Join(l, sep)]. *)
Fixpoint Join (l : list string) (sep : string) : string :=
  match l with
  | [] => EmptyString
  | [x] => x
  | x :: rest => x ++ sep ++ Join rest sep
  end.

(** Number of occurrences of a byte. *)
Fixpoint count (s : string) (c : ascii) : nat :=
  match s with
  | EmptyString => 0%nat
  | String d rest => ((if Ascii.eqb d c then 1 else 0) + count rest c)%nat
  end.

(** The text before the first occurrence of [c] (all of [s] if there is
    none): the reference reading of "the part before the first dot". *)
Fixpoint before (s : string) (c : ascii) : string :=
  match s with
  | EmptyString => EmptyString
  | String d rest => if Ascii.eqb d c then EmptyString else String d (before rest c)
  end.

End GoStrings.

(** ** Go errors *)

Module Errors.

(** The [error] values that reach this code: the sentinel [sql.ErrNoRows],
    a leaf error with its message ([errors.New], [fmt.Errorf] without
    [%w], library errors), and an error wrapping another one. *)
Inductive error : Type :=
| ErrNoRows
| errorString (msg : string)
| wrapError (msg : string) (err : error).

(** [err.Error()]. *)
Definition Error (e : error) : string :=
  match e with
  | ErrNoRows => "sql: no rows in result set"
  | errorString m => m
  | wrapError m _ => m
  end.

(** [errors.Is(err, sql.ErrNoRows)]: walks the [Unwrap] chain. *)
Fixpoint IsNoRows (e : error) : bool :=
  match e with
  | ErrNoRows => true
  | errorString _ => false
  | wrapError _ inner => IsNoRows inner
  end.

(** A Go result [(T, error)] whose value is unusable when the error is set. *)
Inductive result (A : Type) : Type :=
| Ok (a : A)
| Err (e : error).
Arguments Ok {A} a.
Arguments Err {A} e.

End Errors.
Export Errors.

(** ** Package [encoding/json] *)

Module JSON.

(** A JSON text as its syntax tree.  A number keeps its literal; an object
    keeps its members in the order they stand in the text. *)
Inductive value : Type :=
| JNull
| JBool (b : bool)
| JNumber (lit : string)
| JString (s : string)
| JArray (items : list value)
| JObject (members : list (string * value)).

(** What the package takes from outside this development: how the encoder
    writes a Go string as a JSON string literal (quotes and escapes),
    and how the decoder's lexer reads the first JSON text off a byte stream
    (or fails: syntax error, unexpected end of input). *)
Class Lexer : Type := {
  quote : string -> string;
  scan : string -> result value
}.

(** The name the decoder's type errors give to a JSON value. *)
Definition kind (j : value) : string :=
  match j with
  | JNull => "null"
  | JBool _ => "bool"
  | JNumber _ => "number"
  | JString _ => "string"
  | JArray _ => "array"
  | JObject _ => "object"
  end.

Definition UnmarshalTypeError (j : value) : error :=
  errorString ("json: cannot unmarshal " ++ kind j ++ " into Go value of type string").

(** The same for a text that does not fit the map as a whole. *)
Definition UnmarshalMapTypeError (j : value) : error :=
  errorString ("json: cannot unmarshal " ++ kind j
                 ++ " into Go value of type map[string]string").

(** *** Decoding into [map[string]string] *)

(** One member [key: v] stored into the map.  A string is stored as it is.
    [null] has no effect on the fresh (empty) element, which is then stored.
    Any other value is a type error: the decoder records the first such
    error, stores the empty element and goes on. *)
Definition storeMember (acc : gmap string string * option error)
    (kv : string * value) : gmap string string * option error :=
  let '(m, saved) := acc in
  let '(k, v) := kv in
  match v with
  | JString s => (<[k := s]> m, saved)
  | JNull => (<[k := EmptyString]> m, saved)
  | _ => (<[k := EmptyString]> m,
          match saved with Some e => Some e | None => Some (UnmarshalTypeError v) end)
  end.

(** [json.Unmarshal] of one JSON text into a [map[string]string] that
    starts out as [resp].  Returns the map afterwards and the error. *)
Definition unmarshalStringMap (j : value) (resp : gmap string string)
  : gmap string string * option error :=
  match j with
  | JNull => (∅, None)
  | JObject members => fold_left storeMember members (resp, None)
  | _ => (resp, Some (UnmarshalMapTypeError j))
  end.

(** Members the decoder stores without complaint: strings and [null]. *)
Definition storable (kv : string * value) : Prop :=
  (exists s, snd kv = JString s) \/ snd kv = JNull.

(** [json.NewDecoder(body).Decode(&resp)]. *)
Definition Decode `{Lexer} (body : string) (resp : gmap string string)
  : gmap string string * option error :=
  match scan body with
  | Err e => (resp, Some e)
  | Ok j => unmarshalStringMap j resp
  end.

(** *** Encoding *)

(** What the encoder makes of a Go value of type [R] (its reflection walk):
    a JSON tree, or an error such as [UnsupportedTypeError] or the error of
    a [MarshalJSON] method. *)
Class Marshaler (R : Type) : Type := Marshal : R -> result value.

(** A value held in an [interface{}]: a string, a
    [map[string]interface{}] (its entries), or a value of another type, given
    by what the encoder makes of it. *)
Inductive any : Type :=
| anyString (s : string)
| anyMap (entries : list (string * any))
| anyOther (enc : result value).

(** Boxing a value of type [R] into [interface{}]. *)
Definition box {R : Type} `{Marshaler R} (r : R) : any := anyOther (Marshal r).

(** The encoder writes the entries of a map sorted by key. *)
Fixpoint insertByKey {A : Type} (kv : string * A) (l : list (string * A))
  : list (string * A) :=
  match l with
  | [] => [kv]
  | kv' :: rest =>
      if String.leb (fst kv) (fst kv') then kv :: l
      else kv' :: insertByKey kv rest
  end.

Definition sortByKey {A : Type} (l : list (string * A)) : list (string * A) :=
  fold_right insertByKey [] l.

(** The members in order; the first failing one fails the whole object. *)
Fixpoint sequence (l : list (string * result value))
  : result (list (string * value)) :=
  match l with
  | [] => Ok []
  | (k, Err e) :: _ => Err e
  | (k, Ok j) :: rest =>
      match sequence rest with
      | Ok js => Ok ((k, j) :: js)
      | Err e => Err e
      end
  end.

Fixpoint marshalAny (v : any) : result value :=
  match v with
  | anyString s => Ok (JString s)
  | anyMap entries =>
      match sequence (sortByKey (map (fun kv => (fst kv, marshalAny (snd kv))) entries)) with
      | Ok members => Ok (JObject members)
      | Err e => Err e
      end
  | anyOther enc => enc
  end.

#[global] Instance any_Marshaler : Marshaler any := marshalAny.
#[global] Instance string_Marshaler : Marshaler string := fun s => Ok (JString s).

(** The compact text of a JSON tree, as the encoder lays it out. *)
Fixpoint render `{Lexer} (j : value) : string :=
  match j with
  | JNull => "null"
  | JBool true => "true"
  | JBool false => "false"
  | JNumber lit => lit
  | JString s => quote s
  | JArray items => "[" ++ GoStrings.Join (map render items) "," ++ "]"
  | JObject members =>
      "{" ++ GoStrings.Join (map (fun kv => quote (fst kv) ++ ":" ++ render (snd kv)) members) ","
          ++ "}"
  end.

(** The bytes one [Encode] call writes: the text and a newline. *)
Definition line `{Lexer} (j : value) : string :=
  render j ++ String "010"%char EmptyString.

End JSON.

(** ** Package [net/http] and the handler monad *)

Module HTTP.

Definition StatusSwitchingProtocols : Z := 101.
Definition StatusOK : Z := 200.
Definition StatusNoContent : Z := 204.
Definition StatusNotModified : Z := 304.
Definition StatusBadRequest : Z := 400.
Definition StatusNotFound : Z := 404.
Definition StatusInternalServerError : Z := 500.

(** [http.StatusText]: the reason phrase of a registered code, empty for
    any other. *)
Definition statusTexts : list (Z * string) :=
  [ (100, "Continue"); (101, "Switching Protocols"); (102, "Processing");
    (103, "Early Hints");
    (200, "OK"); (201, "Created"); (202, "Accepted");
    (203, "Non-Authoritative Information"); (204, "No Content");
    (205, "Reset Content"); (206, "Partial Content"); (207, "Multi-Status");
    (208, "Already Reported"); (226, "IM Used");
    (300, "Multiple Choices"); (301, "Moved Permanently"); (302, "Found");
    (303, "See Other"); (304, "Not Modified"); (305, "Use Proxy");
    (307, "Temporary Redirect"); (308, "Permanent Redirect");
    (400, "Bad Request"); (401, "Unauthorized"); (402, "Payment Required");
    (403, "Forbidden"); (404, "Not Found"); (405, "Method Not Allowed");
    (406, "Not Acceptable"); (407, "Proxy Authentication Required");
    (408, "Request Timeout"); (409, "Conflict"); (410, "Gone");
    (411, "Length Required"); (412, "Precondition Failed");
    (413, "Request Entity Too Large"); (414, "Request URI Too Long");
    (415, "Unsupported Media Type"); (416, "Requested Range Not Satisfiable");
    (417, "Expectation Failed"); (418, "I'm a teapot");
    (421, "Misdirected Request"); (422, "Unprocessable Entity");
    (423, "Locked"); (424, "Failed Dependency"); (425, "Too Early");
    (426, "Upgrade Required"); (428, "Precondition Required");
    (429, "Too Many Requests"); (431, "Request Header Fields Too Large");
    (451, "Unavailable For Legal Reasons");
    (500, "Internal Server Error"); (501, "Not Implemented");
    (502, "Bad Gateway"); (503, "Service Unavailable");
    (504, "Gateway Timeout"); (505, "HTTP Version Not Supported");
    (506, "Variant Also Negotiates"); (507, "Insufficient Storage");
    (508, "Loop Detected"); (510, "Not Extended");
    (511, "Network Authentication Required") ].

Definition StatusText (code : Z) : string :=
  match find (fun p => Z.eqb (fst p) code) statusTexts with
  | Some p => snd p
  | None => EmptyString
  end.

(** An incoming request, as far as the handlers read it: the route
    parameters bound by the router, the query string, the header and the
    body. *)
Record Request : Type := {
  URLParams : gmap string string;
  Query : gmap string string;
  Header : gmap string string;
  Body : string
}.

(** [chi.URLParam(r, key)], [r.URL.Query().Get(key)], [r.Header.Get(key)]:
    the empty string when the key is unbound. *)
Definition URLParam (r : Request) (key : string) : string :=
  default EmptyString (URLParams r !! key).
Definition QueryGet (r : Request) (key : string) : string :=
  default EmptyString (Query r !! key).
Definition HeaderGet (r : Request) (key : string) : string :=
  default EmptyString (Header r !! key).

(** An [http.ResponseWriter] that records what it is asked to send, as
    [httptest.ResponseRecorder] does.  [header] is the map [Header()] hands
    out; when the header goes out the status is fixed and the map is sent
    as it then stands ([sent]); later changes of the map and later
    [WriteHeader] calls reach nobody.  Every byte written is kept in
    [body], also under a status with which a server sends no body. *)
Record ResponseWriter : Type := {
  header : gmap string string;
  wroteHeader : bool;
  status : Z;
  sent : gmap string string;
  body : string
}.

Definition NewRecorder : ResponseWriter :=
  {| header := ∅; wroteHeader := false; status := 0; sent := ∅; body := EmptyString |}.

Definition setHeader (k v : string) (w : ResponseWriter) : ResponseWriter :=
  {| header := <[k := v]> (header w); wroteHeader := wroteHeader w;
     status := status w; sent := sent w; body := body w |}.

(** [checkWriteHeaderCode]: a status code has three digits. *)
Definition checkWriteHeaderCode (code : Z) : bool :=
  (100 <=? code) && (code <=? 999).

(** The codes of interim responses: 1xx other than 101. *)
Definition informational (code : Z) : bool :=
  (100 <=? code) && (code <=? 199) && negb (code =? StatusSwitchingProtocols).

(** [bodyAllowedForStatus]: the statuses a server sends a body with. *)
Definition bodyAllowedForStatus (status : Z) : bool :=
  negb ((100 <=? status) && (status <=? 199))
  && negb (status =? StatusNoContent) && negb (status =? StatusNotModified).

(** The header goes out with status [code], unless it already has.  This is
    what [WriteHeader] does with a code it has accepted; the checks are
    those of [WriteHeader] below. *)
Definition sendHeader (code : Z) (w : ResponseWriter) : ResponseWriter :=
  if wroteHeader w then w
  else {| header := header w; wroteHeader := true;
          status := code; sent := header w; body := body w |}.

(** [w.Write(b)]: sends the header with status 200 first if none was sent. *)
Definition write (b : string) (w : ResponseWriter) : ResponseWriter :=
  let w' := sendHeader StatusOK w in
  {| header := header w'; wroteHeader := wroteHeader w';
     status := status w'; sent := sent w'; body := body w' ++ b |}.

(** Chunks written one after the other. *)
Definition writes (chunks : list string) (rw : ResponseWriter) : ResponseWriter :=
  fold_left (fun acc chunk => write chunk acc) chunks rw.

(** Calls that leave the handler, in the order they are made. *)
Inductive event : Type :=
| GetDocumentCall (id : string)
| HighlightCall (content extension : string)
| ParseMarkdownCall (content : string)
| DebugLog (err : error) (msg : string).

(** What a handler runs on: the response writer and the calls made so far. *)
Record state : Type := {
  w : ResponseWriter;
  trace : list event
}.

Definition initial : state := {| w := NewRecorder; trace := [] |}.

(** A statement sequence either runs to its end or panics. *)
Inductive outcome (A : Type) : Type :=
| Return (a : A)
| Panic (e : error).
Arguments Return {A} a.
Arguments Panic {A} e.

Definition action (A : Type) : Type := state -> outcome A * state.

Definition ret {A : Type} (a : A) : action A := fun st => (Return a, st).

Definition bind {A B : Type} (c : action A) (k : A -> action B) : action B :=
  fun st =>
    match c st with
    | (Return a, st') => k a st'
    | (Panic e, st') => (Panic e, st')
    end.

Definition panic {A : Type} (e : error) : action A := fun st => (Panic e, st).

#[global] Instance action_ret : MRet action := @ret.
#[global] Instance action_bind : MBind action := fun A B k c => bind c k.

Definition onWriter (f : ResponseWriter -> ResponseWriter) : action unit :=
  fun st => (Return tt, {| w := f (w st); trace := trace st |}).

Definition emit (ev : event) : action unit :=
  fun st => (Return tt, {| w := w st; trace := trace st ++ [ev] |}).

(** [w.Header().Set(k, v)] and [w.Write(b)]. *)
Definition HeaderSet (k v : string) : action unit := onWriter (setHeader k v).
Definition Write (b : string) : action unit := onWriter (write b).

(** [w.WriteHeader(code)].  On a started response the call is ignored.
    Otherwise the code is checked, and one that has not three digits
    panics (with a text, kept here as an error of that text).  An
    informational code sends an interim response, which is not recorded,
    and leaves the response unstarted.  Any other code starts the
    response. *)
Definition WriteHeader (code : Z) : action unit :=
  fun st =>
    if wroteHeader (w st) then onWriter (sendHeader code) st
    else if negb (checkWriteHeaderCode code) then
      panic (errorString ("invalid WriteHeader code " ++ GoStrings.itoa code)) st
    else if informational code then ret tt st
    else onWriter (sendHeader code) st.

(** A handler run on a fresh response writer, and the state it leaves. *)
Definition run {A : Type} (h : action A) : outcome A * state := h initial.
Definition final {A : Type} (h : action A) : state := snd (run h).

(** The response was started with status [code]. *)
Definition responded (st : state) (code : Z) : Prop :=
  wroteHeader (w st) = true /\ status (w st) = code.

(** The [Content-Type] the client was sent. *)
Definition contentType (st : state) : option string :=
  sent (w st) !! "Content-Type".

(** The ids handed to the Document Accessor so far. *)
Definition lookups (st : state) : list string :=
  omap (fun ev => match ev with GetDocumentCall id => Some id | _ => None end) (trace st).

(** The extension hints handed to the syntax highlighter so far. *)
Definition hints (st : state) : list string :=
  omap (fun ev => match ev with HighlightCall _ ext => Some ext | _ => None end) (trace st).

(** The contents handed to the Markdown renderer so far. *)
Definition markdowns (st : state) : list string :=
  omap (fun ev => match ev with ParseMarkdownCall c => Some c | _ => None end) (trace st).

(** The errors written to the debug log so far. *)
Definition logs (st : state) : list error :=
  omap (fun ev => match ev with DebugLog e _ => Some e | _ => None end) (trace st).

(** An action that runs to its end from every state. *)
Definition returns {A : Type} (c : action A) : Prop :=
  forall st, exists a st', c st = (Return a, st').

(** An action that panics, if it does, with an error in [P] only. *)
Definition panicsWith {A : Type} (P : error -> Prop) (c : action A) : Prop :=
  forall st e st', c st = (Panic e, st') -> P e.

(** An action that asks the Document Accessor for nothing. *)
Definition quiet {A : Type} (c : action A) : Prop :=
  forall st, lookups (snd (c st)) = lookups st.

End HTTP.

(** ** Package [html/template] and the embedded resources *)

Module Template.

(** A value handed to a template: [template.HTML], [template.CSS] or a
    plain string. *)
Inductive datum : Type :=
| HTML (s : string)
| CSS (s : string)
| Str (s : string).

(** The data of one execution: the named entries of the map or struct. *)
Definition data : Type := list (string * datum).

(** The engine and the embedded file system.  [Execute t d] gives the
    chunks the template writes, in order, and the error that stopped it. *)
Class Engine : Type := {
  FS : Type;
  template : Type;
  ParseFS : FS -> string -> result template;
  Execute : template -> data -> list string * option error
}.

(** [template.Must]. *)
Definition Must `{Engine} (r : result template) : HTTP.action template :=
  match r with
  | Ok t => mret t
  | Err e => HTTP.panic e
  end.

(** [t.Execute(w, d)]: every chunk goes through [w.Write]. *)
Definition ExecuteTo `{Engine} (t : template) (d : data) : HTTP.action (option error) :=
  let '(chunks, err) := Execute t d in
  foldr (fun chunk rest => HTTP.Write chunk ;; rest) (mret err) chunks.

End Template.

(** ** Package [validation] (ozzo-validation) *)

Module Validation.

Inductive Rule : Type :=
| Required
| Length (min max : Z).

(** The error a rule reports, by its code. *)
Inductive Error : Type :=
| ErrRequired
| ErrLengthTooLong
| ErrLengthTooShort
| ErrLengthInvalid
| ErrLengthOutOfRange
| ErrLengthEmptyRequired.

(** The error a [Length(min, max)] rule is built with. *)
Definition buildLengthRuleError (min max : Z) : Error :=
  if (min =? 0) && (0 <? max) then ErrLengthTooLong
  else if (0 <? min) && (max =? 0) then ErrLengthTooShort
  else if (0 <? min) && (0 <? max) then
    if min =? max then ErrLengthInvalid else ErrLengthOutOfRange
  else ErrLengthEmptyRequired.

(** One rule applied to a string.  [Required] rejects the empty string.
    [Length] accepts the empty string (it is [Required]'s business) and
    otherwise compares the byte length with the bounds that are set. *)
Definition check (rule : Rule) (value : string) : option Error :=
  match rule with
  | Required =>
      if String.eqb value EmptyString then Some ErrRequired else None
  | Length min max =>
      if String.eqb value EmptyString then None
      else
        let l := GoStrings.len value in
        if ((0 <? min) && (l <? min)) || ((0 <? max) && (max <? l))
           || ((min =? 0) && (max =? 0) && (0 <? l))
        then Some (buildLengthRuleError min max)
        else None
  end.

(** [validation.Validate(value, rules...)]: the first rule that fails. *)
Fixpoint Validate (value : string) (rules : list Rule) : option Error :=
  match rules with
  | [] => None
  | rule :: rest =>
      match check rule value with
      | Some e => Some e
      | None => Validate value rest
      end
  end.

(** [validation.Field(&v.Name, rules...)]: the field's name, its value and
    its rules. *)
Record FieldRules : Type := Field {
  fieldName : string;
  fieldValue : string;
  fieldRules : list Rule
}.

(** [validation.Errors]: the failing fields, each with its error. *)
Definition Errors : Type := gmap string Error.

(** [validation.ValidateStruct]: every field is checked; [nil] when none
    fails, the map of failures otherwise. *)
Definition collect (fields : list FieldRules) : Errors :=
  fold_left
    (fun errs f =>
       match Validate (fieldValue f) (fieldRules f) with
       | Some e => <[fieldName f := e]> errs
       | None => errs
       end)
    fields ∅.

Definition ValidateStruct (fields : list FieldRules) : option Errors :=
  let errs := collect fields in
  if decide (errs = ∅) then None else Some errs.

End Validation.

(** ** Packages [config] and [database]

    Neither package is part of the sources at hand.  The handlers read two
    fields of the server's configuration and one of the process-wide one,
    call one method of the storage interface, read one field of the
    document it returns and hand the document to the JSON encoder. *)

Module config.

(** The fields of [config.Cfg] the handlers read. *)
Record Cfg : Type := {
  IDLength : Z;
  Documents : list string;
  Analytics : string
}.

(** The process-wide [config.Config]. *)
Class Global : Type := Config : Cfg.

End config.

Module database.

(** [database.Document]: its type is left open; [Content] is the field the
    handlers read, and the [Marshaler] is what [encoding/json] makes of it. *)
Class Model : Type := {
  Document : Type;
  Content : Document -> string;
  Document_Marshaler :: JSON.Marshaler Document
}.

(** The [database.Database] interface, by the one method called here.  The
    request context is handed through untouched and is left out. *)
Record Database `{Model} : Type := {
  GetDocument : string -> Document * option error
}.

End database.
#[global] Existing Instance database.Document_Marshaler.

(** ** Package [util]: [types.go] and [helpers.go] *)

Module util.
Import GoStrings HTTP.

Definition ErrTooManyParts : error :=
  errorString "ratelimiter string invalid: too many parts".

(** [DocumentResponse] is a document object. *)
Record DocumentResponse : Type := {
  ID : string;
  DocumentResponse_Content : string;
  CreatedAt : Z;
  UpdatedAt : Z;
  Exists : bool
}.

(** [Token] is an authentication token object. *)
Record Token : Type := {
  Version : string;
  Public : string;
  Secret : string;
  Salt : string
}.

(** What [encoding/json] makes of a [DocumentResponse]: the fields in the
    order of the struct, under the names of their tags, each left out when
    it holds its zero value ([omitempty]). *)
Definition DocumentResponse_members (d : DocumentResponse) : list (string * JSON.value) :=
  ((if String.eqb (ID d) EmptyString then [] else [("id", JSON.JString (ID d))])
   ++ (if String.eqb (DocumentResponse_Content d) EmptyString then []
       else [("content", JSON.JString (DocumentResponse_Content d))])
   ++ (if CreatedAt d =? 0 then [] else [("created_at", JSON.JNumber (itoa (CreatedAt d)))])
   ++ (if UpdatedAt d =? 0 then [] else [("updated_at", JSON.JNumber (itoa (UpdatedAt d)))])
   ++ (if Exists d then [("exists", JSON.JBool true)] else []))%list.

#[global] Instance DocumentResponse_Marshaler : JSON.Marshaler DocumentResponse :=
  fun d => Ok (JSON.JObject (DocumentResponse_members d)).

(** [CreateRequest] represents a POST request to create a document. *)
Record CreateRequest : Type := { Content : string }.

(** [SigninRequest] represents a POST request to authenticate an account. *)
Record SigninRequest : Type := { Username : string; Password : string }.

(** [SignupRequest] represents a POST request to register an account. *)
Record SignupRequest : Type := {
  SignupRequest_Username : string;
  SignupRequest_Password : string
}.

(** The type parameter [T CreateRequest | SigninRequest | SignupRequest] of
    [ValidateBody].  The constraint leaves the [default] branch of its type
    switch without a value that reaches it. *)
Inductive BodyT : Type :=
| ofCreateRequest (v : CreateRequest)
| ofSigninRequest (v : SigninRequest)
| ofSignupRequest (v : SignupRequest).

Definition ValidateBody (maxSize : Z) (body : BodyT) : option Validation.Errors :=
  match body with
  | ofCreateRequest v =>
      Validation.ValidateStruct
        [ Validation.Field "Content" (Content v)
            [Validation.Required; Validation.Length 2 maxSize] ]
  | ofSigninRequest v =>
      Validation.ValidateStruct
        [ Validation.Field "Username" (Username v) [Validation.Required];
          Validation.Field "Password" (Password v)
            [Validation.Required; Validation.Length 16 128] ]
  | ofSignupRequest v =>
      Validation.ValidateStruct
        [ Validation.Field "Username" (SignupRequest_Username v) [Validation.Required];
          Validation.Field "Password" (SignupRequest_Password v)
            [Validation.Required; Validation.Length 16 128] ]
  end.

(** The two [*http.Request] methods of the multipart branch. *)
Class Multipart : Type := {
  ParseMultipartForm : Request -> Z -> option error;
  FormValue : Request -> string -> string
}.

(** The other files of the package: the Markdown renderer and the syntax
    highlighter. *)
Class Renderers : Type := {
  ParseMarkdown : string -> string;
  Highlight : string -> string -> string * string * option error
}.

Section helpers.
Context `{JSON.Lexer} `{Multipart} `{Template.Engine}.

(** [HandleBody] figures out whether a incoming request is in JSON or
    multipart/form-data and decodes it appropriately.  The memory bound of
    the multipart branch, [int64(float64(maxSize) * math.Pow(1024, 2))], is
    the exact product as long as it fits an [int64]. *)
Definition HandleBody (maxSize : Z) (r : Request) : CreateRequest * option error :=
  (* Ignore charset or boundary fields, just get type of content *)
  let contentType := index (Split (HeaderGet r "Content-Type") ";"%char) 0 in
  if String.eqb contentType "application/json" then
    let resp : gmap string string := ∅ in
    match JSON.Decode (Body r) resp with
    | (_, Some err) => ({| Content := EmptyString |}, Some err)
    | (resp, None) =>
        ({| Content := default EmptyString (resp !! "content") |}, None)
    end
  else if String.eqb contentType "multipart/form-data" then
    match ParseMultipartForm r (maxSize * 1024 ^ 2) with
    | Some err => ({| Content := EmptyString |}, Some err)
    | None => ({| Content := FormValue r "content" |}, None)
    end
  else ({| Content := EmptyString |}, None).

(** [json.NewEncoder(w).Encode(v)]: the value is encoded in full before
    anything is written; an encoding error writes nothing. *)
Definition Encode (v : JSON.any) : action (option error) :=
  match JSON.marshalAny v with
  | Err e => mret (Some e)
  | Ok j => Write (JSON.line j) ;; mret None
  end.

(** [WriteJSON] writes a Request payload (p) to an HTTP response writer (w). *)
Definition WriteJSON {R : Type} `{JSON.Marshaler R} (status : Z) (r : R)
  : action (option error) :=
  HeaderSet "Content-Type" "application/json" ;;
  WriteHeader status ;;
  _ ← Encode (JSON.anyMap [ ("payload", JSON.box r); ("error", JSON.anyString EmptyString) ]);
  mret None.

(** [WriteError] writes an Error object (e) to an HTTP response writer (w). *)
Definition WriteError (status : Z) (e : error) : action (option error) :=
  HeaderSet "Content-Type" "application/json" ;;
  WriteHeader status ;;
  _ ← Encode (JSON.anyMap [ ("payload", JSON.anyMap []); ("error", JSON.anyString (Error e)) ]);
  emit (DebugLog e "Request Error") ;;
  mret None.

(** [RenderError] renders errors to the client using an HTML template. *)
Definition RenderError (r : Template.FS) (status : Z) (err : error)
  : action (option error) :=
  tmpl ← Template.Must (Template.ParseFS r "web/error.html");
  HeaderSet "Content-Type" "text/html" ;;
  WriteHeader status ;;
  let data :=
    [ ("Status", Template.Str (Join [itoa status; StatusText status] " "));
      ("Error", Template.Str (Error err)) ] in
  err ← Template.ExecuteTo tmpl data;
  match err with
  | Some err => mret (Some err)
  | None => mret None
  end.

End helpers.
End util.

(** ** Package [server]: [fetch.go] *)

Module server.
Import GoStrings HTTP.

Section fetch.
Context `{JSON.Lexer} `{Template.Engine} `{util.Renderers}
        `{config.Global} `{database.Model}.

(** The embedded file system [resources] of the package. *)
Context (resources : Template.FS).

Record Server : Type := {
  Config : config.Cfg;
  Database : database.Database
}.

Definition getDocument (s : Server) (id : string)
  : action (database.Document * option error) :=
  emit (GetDocumentCall id) ;;
  mret (database.GetDocument (Database s) id).

Definition StaticDocument (s : Server) (r : Request) : action unit :=
  let params := Split (URLParam r "document") "."%char in
  let id := index params 0 in
  (* Validate document ID *)
  if negb (len id =? config.IDLength (Config s))
     && negb (Contains (config.Documents (Config s)) id) then
    let err := errorString ("id is of length " ++ itoa (len id) ++ ", should be "
                              ++ itoa (config.IDLength (Config s))) in
    util.RenderError resources StatusBadRequest err ;; mret tt
  else
    (* Retrieve document from the database *)
    '(document, err) ← getDocument s id;
    match err with
    | Some err =>
        (* If the document is not found (ErrNoRows), return the error with a 404 *)
        if IsNoRows err then
          util.RenderError resources StatusNotFound err ;; mret tt
        else
          (* Otherwise, return the error with a 500 *)
          util.RenderError resources StatusInternalServerError err ;; mret tt
    | None =>
        (* Reader mode or code mode? *)
        if String.eqb (QueryGet r "reader") "true" then
          match Template.ParseFS resources "web/reader.html" with
          | Err err =>
              util.RenderError resources StatusInternalServerError err ;; mret tt
          | Ok t =>
              emit (ParseMarkdownCall (database.Content document)) ;;
              let content := util.ParseMarkdown (database.Content document) in
              let data :=
                [ ("Content", Template.HTML content);
                  ("Analytics", Template.HTML (config.Analytics config.Config)) ] in
              err ← Template.ExecuteTo t data;
              match err with
              | Some err =>
                  util.RenderError resources StatusInternalServerError err ;; mret tt
              | None => mret tt
              end
          end
        else
          match Template.ParseFS resources "web/document.html" with
          | Err err =>
              util.RenderError resources StatusInternalServerError err ;; mret tt
          | Ok t =>
              let extension :=
                if (length params =? 2)%nat then index params 1 else EmptyString in
              emit (HighlightCall (database.Content document) extension) ;;
              let '(highlighted, css, err) :=
                util.Highlight (database.Content document) extension in
              match err with
              | Some err =>
                  util.RenderError resources StatusInternalServerError err ;; mret tt
              | None =>
                  let data :=
                    [ ("Stylesheet", Template.CSS css);
                      ("Content", Template.Str (database.Content document));
                      ("Highlighted", Template.HTML highlighted);
                      ("Extension", Template.Str extension);
                      ("Analytics", Template.HTML (config.Analytics config.Config)) ] in
                  err ← Template.ExecuteTo t data;
                  match err with
                  | Some err =>
                      util.RenderError resources StatusInternalServerError err ;; mret tt
                  | None => mret tt
                  end
              end
          end
    end.

Definition FetchDocument (s : Server) (r : Request) : action unit :=
  let id := URLParam r "document" in
  (* Validate document ID *)
  if negb (len id =? config.IDLength (Config s))
     && negb (Contains (config.Documents (Config s)) id) then
    let err := errorString ("id is of length " ++ itoa (len id) ++ ", should be "
                              ++ itoa (config.IDLength (Config s))) in
    util.WriteError StatusBadRequest err ;; mret tt
  else
    '(document, err) ← getDocument s id;
    match err with
    | Some err =>
        (* If the document is not found (ErrNoRows), return the error with a 404 *)
        if IsNoRows err then
          util.WriteError StatusNotFound err ;; mret tt
        else
          (* Otherwise, return the error with a 500 *)
          util.WriteError StatusInternalServerError err ;; mret tt
    | None =>
        (* Try responding with the document and a 200, or write an error if that fails *)
        err ← util.WriteJSON StatusOK document;
        match err with
        | Some err => util.WriteError StatusInternalServerError err ;; mret tt
        | None => mret tt
        end
    end.

Definition FetchRawDocument (s : Server) (r : Request) : action unit :=
  let id := URLParam r "document" in
  (* Validate document ID *)
  if negb (len id =? config.IDLength (Config s))
     && negb (Contains (config.Documents (Config s)) id) then
    let err := errorString ("id is of length " ++ itoa (len id) ++ ", should be "
                              ++ itoa (config.IDLength (Config s))) in
    util.WriteError StatusBadRequest err ;; mret tt
  else
    '(document, err) ← getDocument s id;
    HeaderSet "Content-Type" "text/plain" ;;
    match err with
    | Some err =>
        (* If the document is not found (ErrNoRows), return the error with a 404 *)
        if IsNoRows err then
          WriteHeader StatusNotFound ;;
          Write ("Document with ID " ++ id ++ " not found: " ++ Error err)
        else
          (* Otherwise, return the error with a 500 *)
          WriteHeader StatusInternalServerError ;;
          Write ("Error fetching document with ID " ++ id ++ ": " ++ Error err)
    | None =>
        (* Respond with only the documents content *)
        WriteHeader StatusOK ;;
        Write (database.Content document)
    end.

(** The specification's reading of a well-formed identifier: exactly the
    configured length, or one of the reserved identifiers. *)
Definition WellFormed (s : Server) (id : string) : Prop :=
  len id = config.IDLength (Config s) \/ In id (config.Documents (Config s)).

(** A handler run took [id] through validation: the Document Accessor was
    asked for it, once. *)
Definition looksUp (h : action unit) (id : string) : Prop :=
  lookups (final h) = [id].

(** A handler run turned the request down with [code] before any lookup. *)
Definition rejects (h : action unit) (code : Z) : Prop :=
  responded (final h) code /\ lookups (final h) = [].

End fetch.
End server.

(** ** A lexer for [encoding/json]

    An instance of [JSON.Lexer] to run the model on request bodies given as
    text.  It follows the package: the JSON grammar of RFC 8259, strings
    coerced to well-formed UTF-8, the first text of the stream taken and
    the rest left unread; the encoder's literals escape the quote, the
    backslash, control bytes, the three HTML characters and U+2028/9.  The
    texts of its syntax errors are abridged.  No statement proved for every
    lexer depends on it. *)

Module Scanner.
Import JSON.

Definition code (c : ascii) : N := N_of_ascii c.
Definition byte (n : N) : ascii := ascii_of_N n.
Definition str1 (c : ascii) : string := String c EmptyString.
Definition bytes (l : list N) : string := string_of_list_ascii (map byte l).

Definition dquote : ascii := "034"%char.
Definition backslash : ascii := "092"%char.

Definition isSpace (c : ascii) : bool :=
  let n := code c in ((n =? 32) || (n =? 9) || (n =? 10) || (n =? 13))%N.

Definition isDigit (c : ascii) : bool :=
  let n := code c in ((48 <=? n) && (n <=? 57))%N.

Definition hexValue (c : ascii) : option N :=
  let n := code c in
  if ((48 <=? n) && (n <=? 57))%N then Some (n - 48)%N
  else if ((97 <=? n) && (n <=? 102))%N then Some (n - 87)%N
  else if ((65 <=? n) && (n <=? 70))%N then Some (n - 55)%N
  else None.

Definition hexDigit (n : N) : ascii :=
  if (n <? 10)%N then byte (48 + n) else byte (87 + n).

(** *** UTF-8 *)

Definition isCont (c : ascii) : bool :=
  let n := code c in ((128 <=? n) && (n <=? 191))%N.

Definition between (lo hi : N) (c : ascii) : bool :=
  let n := code c in ((lo <=? n) && (n <=? hi))%N.

(** The length of the well-formed UTF-8 sequence [s] starts with, 0 when it
    starts with none ([utf8.DecodeRune] then reports an error of width 1). *)
Definition runeLen (s : string) : nat :=
  match s with
  | EmptyString => 0%nat
  | String c0 rest =>
      let n := code c0 in
      if (n <? 128)%N then 1%nat
      else match rest with
      | EmptyString => 0%nat
      | String c1 rest1 =>
          if between 194 223 c0 then (if isCont c1 then 2%nat else 0%nat)
          else match rest1 with
          | EmptyString => 0%nat
          | String c2 rest2 =>
              let second3 :=
                if (n =? 224)%N then between 160 191 c1
                else if (n =? 237)%N then between 128 159 c1
                else isCont c1 in
              if between 224 239 c0 then
                (if second3 && isCont c2 then 3%nat else 0%nat)
              else match rest2 with
              | EmptyString => 0%nat
              | String c3 _ =>
                  let second4 :=
                    if (n =? 240)%N then between 144 191 c1
                    else if (n =? 244)%N then between 128 143 c1
                    else isCont c1 in
                  if between 240 244 c0 && second4 && isCont c2 && isCont c3
                  then 4%nat else 0%nat
              end
          end
      end
  end.

(** [utf8.AppendRune] on a scalar value. *)
Definition encodeRune (r : N) : string :=
  (if r <? 128 then bytes [r]
   else if r <? 2048 then bytes [192 + r / 64; 128 + r mod 64]
   else if r <? 65536 then
     bytes [224 + r / 4096; 128 + (r / 64) mod 64; 128 + r mod 64]
   else
     bytes [240 + r / 262144; 128 + (r / 4096) mod 64;
            128 + (r / 64) mod 64; 128 + r mod 64])%N.

(** U+FFFD, the replacement character. *)
Definition replacement : string := encodeRune 65533.

(** *** The encoder's string literal *)

(** Bytes below 0x80 the encoder copies as they are: printable ASCII but
    the quote, the backslash and the three HTML characters. *)
Definition htmlSafe (c : ascii) : bool :=
  let n := code c in
  ((32 <=? n) && negb (n =? 34) && negb (n =? 92)
   && negb (n =? 38) && negb (n =? 60) && negb (n =? 62))%N.

Definition escapeASCII (c : ascii) : string :=
  let n := code c in
  (if (n =? 34) || (n =? 92) then String backslash (str1 c)
   else if n =? 8 then String backslash "b"
   else if n =? 12 then String backslash "f"
   else if n =? 10 then String backslash "n"
   else if n =? 13 then String backslash "r"
   else if n =? 9 then String backslash "t"
   else String backslash ("u00" ++ String (hexDigit (n / 16)) (str1 (hexDigit (n mod 16)))))%N.

(** The body of the literal.  [pending] counts the bytes that remain of a
    multi-byte sequence already dealt with: copied when [keep], dropped
    when the sequence was written as an escape. *)
Fixpoint quoteBody (s : string) (keep : bool) (pending : nat) : string :=
  match s with
  | EmptyString => EmptyString
  | String c rest =>
      match pending with
      | S p =>
          if keep then String c (quoteBody rest keep p) else quoteBody rest keep p
      | O =>
          if (code c <? 128)%N then
            (if htmlSafe c then String c (quoteBody rest true 0)
             else escapeASCII c ++ quoteBody rest true 0)
          else
            match runeLen s with
            | O => String backslash "ufffd" ++ quoteBody rest true 0
            | S p =>
                if String.prefix (bytes [226; 128; 168]%N) s
                then String backslash "u2028" ++ quoteBody rest false p
                else if String.prefix (bytes [226; 128; 169]%N) s
                then String backslash "u2029" ++ quoteBody rest false p
                else String c (quoteBody rest true p)
            end
      end
  end.

Definition quoteString (s : string) : string :=
  String dquote (quoteBody s true 0) ++ str1 dquote.

(** *** The decoder's lexer *)

Definition EOF : error := errorString "EOF".
Definition ErrUnexpectedEOF : error := errorString "unexpected EOF".
Definition SyntaxError (c : ascii) (context : string) : error :=
  errorString ("invalid character '" ++ str1 c ++ "' " ++ context).

Fixpoint skipSpace (s : string) : string :=
  match s with
  | String c rest => if isSpace c then skipSpace rest else s
  | EmptyString => s
  end.

(** Four hex digits. *)
Definition getu4 (s : string) : option (N * string) :=
  match s with
  | String a (String b (String c (String d rest))) =>
      match hexValue a, hexValue b, hexValue c, hexValue d with
      | Some x, Some y, Some z, Some t => Some (((x * 16 + y) * 16 + z) * 16 + t, rest)%N
      | _, _, _, _ => None
      end
  | _ => None
  end.

Definition isSurrogate (r : N) : bool := ((55296 <=? r) && (r <? 57344))%N.

(** The rune of a [\u] escape whose four digits gave [r], and the input
    after it: a surrogate pair is one rune, a lone surrogate is replaced. *)
Definition escapedRune (r : N) (rest : string) : N * string :=
  if isSurrogate r then
    match rest with
    | String b (String u rest1) =>
        if Ascii.eqb b backslash && Ascii.eqb u "u"%char then
          match getu4 rest1 with
          | Some (r1, rest2) =>
              if ((r <? 56320) && (56320 <=? r1) && (r1 <? 57344))%N
              then (65536 + (r - 55296) * 1024 + (r1 - 56320), rest2)%N
              else (65533%N, rest)
          | None => (65533%N, rest)
          end
        else (65533%N, rest)
    | _ => (65533%N, rest)
    end
  else (r, rest).

(** A string literal from after its opening quote: the string it denotes
    and the input after the closing quote.  [pending] counts the bytes still
    to copy of a multi-byte sequence already found well-formed; an
    ill-formed byte is replaced by U+FFFD. *)
Fixpoint scanString (fuel : nat) (s : string) (pending : nat) : result (string * string) :=
  match fuel with
  | O => Err ErrUnexpectedEOF
  | S fuel =>
      match s with
      | EmptyString => Err ErrUnexpectedEOF
      | String c rest =>
          let copy (b : string) (s1 : string) (p1 : nat) :=
            match scanString fuel s1 p1 with
            | Ok (t, s2) => Ok (b ++ t, s2)
            | Err err => Err err
            end in
          match pending with
          | S p => copy (str1 c) rest p
          | O =>
              if Ascii.eqb c dquote then Ok (EmptyString, rest)
              else if Ascii.eqb c backslash then
                match rest with
                | EmptyString => Err ErrUnexpectedEOF
                | String e rest1 =>
                    let n := code e in
                    (if (n =? 34) || (n =? 92) || (n =? 47) then copy (str1 e) rest1 0%nat
                     else if n =? 98 then copy (bytes [8]) rest1 0%nat
                     else if n =? 102 then copy (bytes [12]) rest1 0%nat
                     else if n =? 110 then copy (bytes [10]) rest1 0%nat
                     else if n =? 114 then copy (bytes [13]) rest1 0%nat
                     else if n =? 116 then copy (bytes [9]) rest1 0%nat
                     else if n =? 117 then
                       match getu4 rest1 with
                       | None =>
                           if (String.length rest1 <? 4)%nat then Err ErrUnexpectedEOF
                           else Err (SyntaxError e "in \u hexadecimal character escape")
                       | Some (r, rest2) =>
                           let '(rr, rest3) := escapedRune r rest2 in
                           copy (encodeRune rr) rest3 0%nat
                       end
                     else Err (SyntaxError e "in string escape code"))%N
                end
              else if (code c <? 32)%N then Err (SyntaxError c "in string literal")
              else if (code c <? 128)%N then copy (str1 c) rest 0%nat
              else
                match runeLen s with
                | O => copy replacement rest 0%nat
                | S p => copy (str1 c) rest p
                end
          end
      end
  end.

(** A run of digits and the input after it. *)
Fixpoint digits (s : string) : string * string :=
  match s with
  | String c rest =>
      if isDigit c then let '(d, s1) := digits rest in (String c d, s1)
      else (EmptyString, s)
  | EmptyString => (EmptyString, s)
  end.

(** At least one digit. *)
Definition digits1 (s : string) : result (string * string) :=
  match s with
  | EmptyString => Err ErrUnexpectedEOF
  | String c _ =>
      if isDigit c then Ok (digits s) else Err (SyntaxError c "in numeric literal")
  end.

Definition exponent (s : string) : result (string * string) :=
  match s with
  | String e rest =>
      if Ascii.eqb e "e"%char || Ascii.eqb e "E"%char then
        let '(sign, rest1) :=
          match rest with
          | String g s1 =>
              if Ascii.eqb g "+"%char || Ascii.eqb g "-"%char then (str1 g, s1)
              else (EmptyString, rest)
          | EmptyString => (EmptyString, rest)
          end in
        match digits1 rest1 with
        | Ok (d, rest2) => Ok (str1 e ++ sign ++ d, rest2)
        | Err err => Err err
        end
      else Ok (EmptyString, s)
  | EmptyString => Ok (EmptyString, s)
  end.

Definition fraction (s : string) : result (string * string) :=
  match s with
  | String dot rest =>
      if Ascii.eqb dot "."%char then
        match digits1 rest with
        | Ok (d, rest1) => Ok (str1 dot ++ d, rest1)
        | Err err => Err err
        end
      else Ok (EmptyString, s)
  | EmptyString => Ok (EmptyString, s)
  end.

(** A number literal: sign, integer part without leading zero, fraction,
    exponent. *)
Definition scanNumber (s : string) : result (string * string) :=
  let '(sign, s1) :=
    match s with
    | String c rest => if Ascii.eqb c "-"%char then (str1 c, rest) else (EmptyString, s)
    | EmptyString => (EmptyString, s)
    end in
  match s1 with
  | EmptyString => Err ErrUnexpectedEOF
  | String c rest =>
      let int :=
        if Ascii.eqb c "0"%char then Ok (str1 c, rest) else digits1 s1 in
      match int with
      | Err err => Err err
      | Ok (i, s2) =>
          match fraction s2 with
          | Err err => Err err
          | Ok (f, s3) =>
              match exponent s3 with
              | Err err => Err err
              | Ok (e, s4) => Ok (sign ++ i ++ f ++ e, s4)
              end
          end
      end
  end.

(** One of the names [true], [false], [null]. *)
Definition literal (name : string) (v : value) (s : string) : result (value * string) :=
  if String.prefix name s
  then Ok (v, String.substring (String.length name) (String.length s) s)
  else if String.prefix s name then Err ErrUnexpectedEOF
  else Err (errorString ("invalid character in literal " ++ name)).

Fixpoint scanValue (fuel : nat) (s : string) : result (value * string) :=
  match fuel with
  | O => Err ErrUnexpectedEOF
  | S fuel =>
      match skipSpace s with
      | EmptyString => Err ErrUnexpectedEOF
      | String c rest =>
          if Ascii.eqb c "{"%char then
            match skipSpace rest with
            | String c1 rest1 =>
                if Ascii.eqb c1 "}"%char then Ok (JObject [], rest1)
                else
                  match scanMembers fuel rest with
                  | Ok (members, rest2) => Ok (JObject members, rest2)
                  | Err err => Err err
                  end
            | EmptyString => Err ErrUnexpectedEOF
            end
          else if Ascii.eqb c "["%char then
            match skipSpace rest with
            | String c1 rest1 =>
                if Ascii.eqb c1 "]"%char then Ok (JArray [], rest1)
                else
                  match scanItems fuel rest with
                  | Ok (items, rest2) => Ok (JArray items, rest2)
                  | Err err => Err err
                  end
            | EmptyString => Err ErrUnexpectedEOF
            end
          else if Ascii.eqb c dquote then
            match scanString (String.length rest) rest 0 with
            | Ok (t, rest1) => Ok (JString t, rest1)
            | Err err => Err err
            end
          else if Ascii.eqb c "-"%char || isDigit c then
            match scanNumber (String c rest) with
            | Ok (lit, rest1) => Ok (JNumber lit, rest1)
            | Err err => Err err
            end
          else if Ascii.eqb c "t"%char then literal "true" (JBool true) (String c rest)
          else if Ascii.eqb c "f"%char then literal "false" (JBool false) (String c rest)
          else if Ascii.eqb c "n"%char then literal "null" JNull (String c rest)
          else Err (SyntaxError c "looking for beginning of value")
      end
  end

with scanMembers (fuel : nat) (s : string) : result (list (string * value) * string) :=
  match fuel with
  | O => Err ErrUnexpectedEOF
  | S fuel =>
      match skipSpace s with
      | EmptyString => Err ErrUnexpectedEOF
      | String q rest =>
          if negb (Ascii.eqb q dquote)
          then Err (SyntaxError q "looking for beginning of object key string")
          else
            match scanString (String.length rest) rest 0 with
            | Err err => Err err
            | Ok (key, rest1) =>
                match skipSpace rest1 with
                | EmptyString => Err ErrUnexpectedEOF
                | String colon rest2 =>
                    if negb (Ascii.eqb colon ":"%char)
                    then Err (SyntaxError colon "after object key")
                    else
                      match scanValue fuel rest2 with
                      | Err err => Err err
                      | Ok (v, rest3) =>
                          match skipSpace rest3 with
                          | EmptyString => Err ErrUnexpectedEOF
                          | String sep rest4 =>
                              if Ascii.eqb sep "}"%char then Ok ([(key, v)], rest4)
                              else if Ascii.eqb sep ","%char then
                                match scanMembers fuel rest4 with
                                | Ok (more, rest5) => Ok ((key, v) :: more, rest5)
                                | Err err => Err err
                                end
                              else Err (SyntaxError sep "after object key:value pair")
                          end
                      end
                end
            end
      end
  end

with scanItems (fuel : nat) (s : string) : result (list value * string) :=
  match fuel with
  | O => Err ErrUnexpectedEOF
  | S fuel =>
      match scanValue fuel s with
      | Err err => Err err
      | Ok (v, rest) =>
          match skipSpace rest with
          | EmptyString => Err ErrUnexpectedEOF
          | String sep rest1 =>
              if Ascii.eqb sep "]"%char then Ok ([v], rest1)
              else if Ascii.eqb sep ","%char then
                match scanItems fuel rest1 with
                | Ok (more, rest2) => Ok (v :: more, rest2)
                | Err err => Err err
                end
              else Err (SyntaxError sep "after array element")
          end
      end
  end.

(** The first JSON text of a stream.  A stream with nothing but white
    space ends the decoder with [io.EOF]. *)
Definition scanText (body : string) : result value :=
  match skipSpace body with
  | EmptyString => Err EOF
  | _ =>
      match scanValue (2 * String.length body + 2) body with
      | Ok (v, _) => Ok v
      | Err err => Err err
      end
  end.

#[global] Instance lexer : Lexer := {| quote := quoteString; scan := scanText |}.

End Scanner.

(** ** Collaborators to run the handlers with

    Stand-ins for what the handlers call outside these files, used where a
    statement is run on a concrete request. *)

Module Fixture.
Import GoStrings.

(** A template engine: the three pages exist; a page writes its name and
    then the values it is given, each in a chunk of its own. *)
Definition pages : list string :=
  ["web/error.html"; "web/reader.html"; "web/document.html"].

Definition text (d : Template.datum) : string :=
  match d with
  | Template.HTML s => s
  | Template.CSS s => s
  | Template.Str s => s
  end.

#[global] Instance engine : Template.Engine := {|
  Template.FS := unit;
  Template.template := string;
  Template.ParseFS := fun _ name =>
    if Contains pages name then Ok name
    else Err (errorString ("template: pattern matches no files: " ++ name));
  Template.Execute := fun t d => (t :: map (fun kv => text (snd kv)) d, None)
|}.

(** The embedded file system. *)
Definition resources : @Template.FS engine := tt.

#[global] Instance renderers : util.Renderers := {|
  util.ParseMarkdown := fun s => "<p>" ++ s ++ "</p>";
  util.Highlight := fun content extension =>
    ("<pre class=" ++ extension ++ ">" ++ content ++ "</pre>", "pre{}", None)
|}.

(** Requests without a multipart body: parsing fails as it does when the
    Content-Type names no boundary. *)
#[global] Instance multipart : util.Multipart := {|
  util.ParseMultipartForm := fun _ _ =>
    Some (errorString "no multipart boundary param in Content-Type");
  util.FormValue := fun r key => HTTP.QueryGet r key
|}.

#[global] Instance global : config.Global :=
  {| config.IDLength := 6; config.Documents := ["about"]; config.Analytics := EmptyString |}.

(** A Go channel: a value the encoder has no encoding for. *)
Inductive Chan : Type := MakeChan.

#[global] Instance Chan_Marshaler : JSON.Marshaler Chan :=
  fun _ => Err (errorString "json: unsupported type: chan int").

(** Documents with [time.Time] stamps, kept as seconds since the Unix
    epoch in UTC.  [time.Time] encodes as an RFC 3339 string and refuses a
    year outside 0..9999. *)
Record StoredDocument : Type := {
  ID : string;
  Content : string;
  CreatedAt : Z;
  UpdatedAt : Z
}.

Definition pad (width : nat) (n : Z) : string :=
  let s := itoa n in
  string_of_list_ascii (repeat "0"%char (width - String.length s)) ++ s.

(** Year, month and day of a day count from 1970-01-01 (proleptic
    Gregorian calendar). *)
Definition civil (days : Z) : Z * Z * Z :=
  let z := days + 719468 in
  let era := z / 146097 in
  let doe := z - era * 146097 in
  let yoe := (doe - doe / 1460 + doe / 36524 - doe / 146096) / 365 in
  let doy := doe - (365 * yoe + yoe / 4 - yoe / 100) in
  let mp := (5 * doy + 2) / 153 in
  let d := doy - (153 * mp + 2) / 5 + 1 in
  let m := if mp <? 10 then mp + 3 else mp - 9 in
  let y := yoe + era * 400 + (if m <=? 2 then 1 else 0) in
  (y, m, d).

Definition marshalTime (t : Z) : result JSON.value :=
  let '(y, m, d) := civil (t / 86400) in
  let secs := t mod 86400 in
  if (y <? 0) || (9999 <? y)
  then Err (errorString "Time.MarshalJSON: year outside of range [0,9999]")
  else Ok (JSON.JString
             (pad 4 y ++ "-" ++ pad 2 m ++ "-" ++ pad 2 d ++ "T"
              ++ pad 2 (secs / 3600) ++ ":" ++ pad 2 ((secs / 60) mod 60) ++ ":"
              ++ pad 2 (secs mod 60) ++ "Z")).

Definition marshalStored (d : StoredDocument) : result JSON.value :=
  match marshalTime (CreatedAt d), marshalTime (UpdatedAt d) with
  | Ok c, Ok u =>
      Ok (JSON.JObject [ ("id", JSON.JString (ID d)); ("content", JSON.JString (Content d));
                         ("created_at", c); ("updated_at", u) ])
  | Err e, _ => Err e
  | _, Err e => Err e
  end.

#[global] Instance model : database.Model := {|
  database.Document := StoredDocument;
  database.Content := Content;
  database.Document_Marshaler := marshalStored
|}.

(** A store: the documents it holds; asking for another id is answered
    with [sql.ErrNoRows]. *)
Definition store (docs : list StoredDocument) : database.Database := {|
  database.GetDocument := fun id =>
    match find (fun d => String.eqb (ID d) id) docs with
    | Some d => (d, None)
    | None => ({| ID := EmptyString; Content := EmptyString; CreatedAt := 0; UpdatedAt := 0 |},
               Some ErrNoRows)
    end
|}.

(** A store whose connection is down. *)
Definition broken : database.Database := {|
  database.GetDocument := fun _ =>
    ({| ID := EmptyString; Content := EmptyString; CreatedAt := 0; UpdatedAt := 0 |},
     Some (wrapError "get document: connection refused" (errorString "connection refused")))
|}.

Definition hello : StoredDocument :=
  {| ID := "abcdef"; Content := "package main"; CreatedAt := 1700000000; UpdatedAt := 1700000000 |}.

(** A document stamped in the year 10000. *)
Definition late : StoredDocument :=
  {| ID := "zzzzzz"; Content := "from afar"; CreatedAt := 253402300800; UpdatedAt := 253402300800 |}.

Definition srv (db : database.Database) : server.Server :=
  {| server.Config := config.Config; server.Database := db |}.

(** The server of the runs: identifiers of length 6, ["about"] reserved,
    one stored document. *)
Definition s0 : server.Server := srv (store [hello]).

(** A GET request for [/{document}] with the given query. *)
Definition get (document : string) (query : list (string * string)) : HTTP.Request :=
  {| HTTP.URLParams := {[ "document" := document ]};
     HTTP.Query := list_to_map query;
     HTTP.Header := ∅;
     HTTP.Body := EmptyString |}.

(** A POST request with a Content-Type and a body. *)
Definition post (contentType body : string) : HTTP.Request :=
  {| HTTP.URLParams := ∅;
     HTTP.Query := ∅;
     HTTP.Header := {[ "Content-Type" := contentType ]};
     HTTP.Body := body |}.

(** A text in double quotes. *)
Definition quoted (s : string) : string :=
  String Scanner.dquote s ++ Scanner.str1 Scanner.dquote.

End Fixture.

(** ** Collaborators that fail

    Stand-ins to run a statement about a failure with: embedded files that
    lack a page, a page that breaks off, a highlighter that gives up. *)

Module Faults.
Import GoStrings.

Definition missing (name : string) : error :=
  errorString ("template: pattern matches no files: " ++ name).

(** The embedded files hold no page at all. *)
Definition noPages : Template.Engine := {|
  Template.FS := unit;
  Template.template := string;
  Template.ParseFS := fun _ name => Err (missing name);
  Template.Execute := fun t d => ([], None)
|}.

(** The embedded files hold the error page only. *)
Definition errorPageOnly : Template.Engine := {|
  Template.FS := unit;
  Template.template := string;
  Template.ParseFS := fun _ name =>
    if String.eqb name "web/error.html" then Ok name else Err (missing name);
  Template.Execute := fun t d => (t :: map (fun kv => Fixture.text (snd kv)) d, None)
|}.

(** All pages are there, and the document page breaks off after its first
    chunk. *)
Definition breakingOff : Template.Engine := {|
  Template.FS := unit;
  Template.template := string;
  Template.ParseFS := fun _ name =>
    if Contains Fixture.pages name then Ok name else Err (missing name);
  Template.Execute := fun t d =>
    if String.eqb t "web/document.html"
    then (["<!DOCTYPE html>"], Some (errorString "template: document.html: execution failed"))
    else (t :: map (fun kv => Fixture.text (snd kv)) d, None)
|}.

(** A highlighter that gives up on every input. *)
Definition noHighlighter : util.Renderers := {|
  util.ParseMarkdown := fun s => "<p>" ++ s ++ "</p>";
  util.Highlight := fun content extension =>
    (EmptyString, EmptyString, Some (errorString "highlight: no formatter"))
|}.

End Faults.

(** * Properties *)

(** ** Splitting *)

Module SplitFacts.
Import GoStrings.

(** A byte does not occur in a string. *)
Definition free (c : ascii) (s : string) : Prop := count s c = 0%nat.

Lemma Split_cons (s : string) (c : ascii) :
  exists p ps, Split s c = p :: ps.
Proof.
  induction s as [|d rest IH]; simpl.
  - eauto.
  - destruct (Ascii.eqb d c); [eauto|].
    destruct IH as (p & ps & ->). eauto.
Qed.

Lemma index_Split_0 (s : string) (c : ascii) :
  index (Split s c) 0 = before s c.
Proof.
  unfold index. induction s as [|d rest IH]; simpl; [reflexivity|].
  destruct (Ascii.eqb d c); [reflexivity|].
  destruct (Split_cons rest c) as (p & ps & E).
  rewrite E in *. simpl in *. congruence.
Qed.

Lemma length_Split (s : string) (c : ascii) :
  length (Split s c) = S (count s c).
Proof.
  induction s as [|d rest IH]; simpl; [reflexivity|].
  destruct (Ascii.eqb d c); simpl; [congruence|].
  destruct (Split_cons rest c) as (p & ps & E).
  rewrite E in *. simpl in *. congruence.
Qed.

Lemma Split_free (s : string) (c : ascii) :
  free c s -> Split s c = [s].
Proof.
  unfold free. induction s as [|d rest IH]; simpl; [reflexivity|].
  destruct (Ascii.eqb d c); [discriminate|].
  intros E. rewrite IH by exact E. reflexivity.
Qed.

Lemma Split_app (a b : string) (c : ascii) :
  free c a -> Split (a ++ String c b) c = a :: Split b c.
Proof.
  unfold free. induction a as [|d rest IH]; simpl.
  - rewrite Ascii.eqb_refl. reflexivity.
  - destruct (Ascii.eqb d c); [discriminate|].
    intros E. rewrite IH by exact E. reflexivity.
Qed.

Lemma before_app (a b : string) (c : ascii) :
  free c a -> before (a ++ String c b) c = a.
Proof.
  intros F. rewrite <- index_Split_0, Split_app by exact F. reflexivity.
Qed.

Lemma before_free (s : string) (c : ascii) :
  free c s -> before s c = s.
Proof.
  intros F. rewrite <- index_Split_0, Split_free by exact F. reflexivity.
Qed.

Lemma count_app (a b : string) (c : ascii) :
  count (a ++ b) c = (count a c + count b c)%nat.
Proof.
  induction a as [|d rest IH]; simpl; [reflexivity|].
  rewrite IH. lia.
Qed.

Lemma Contains_In (l : list string) (x : string) :
  Contains l x = true <-> In x l.
Proof.
  unfold Contains. rewrite existsb_exists. split.
  - intros (y & Hy & E). apply String.eqb_eq in E. congruence.
  - intros Hx. exists x. split; [exact Hx | apply String.eqb_refl].
Qed.

End SplitFacts.

(** ** The response writer *)

Module WriterFacts.
Import HTTP.

(** Once the header is out, writing keeps the status and what was sent. *)
Lemma write_started (b : string) (rw : ResponseWriter) :
  wroteHeader rw = true ->
  wroteHeader (write b rw) = true /\ status (write b rw) = status rw
  /\ sent (write b rw) = sent rw /\ body (write b rw) = (body rw ++ b)%string.
Proof.
  intros E. unfold write, sendHeader. rewrite E. simpl. auto.
Qed.

Lemma sendHeader_fresh (code : Z) (rw : ResponseWriter) :
  wroteHeader rw = false ->
  wroteHeader (sendHeader code rw) = true /\ status (sendHeader code rw) = code
  /\ sent (sendHeader code rw) = header rw /\ body (sendHeader code rw) = body rw.
Proof.
  intros E. unfold sendHeader. rewrite E. simpl. auto.
Qed.

Lemma writes_started (chunks : list string) (rw : ResponseWriter) :
  wroteHeader rw = true ->
  wroteHeader (writes chunks rw) = true /\ status (writes chunks rw) = status rw
  /\ sent (writes chunks rw) = sent rw.
Proof.
  revert rw. induction chunks as [|c rest IH]; intros rw E; simpl; [auto|].
  destruct (write_started c rw E) as (E1 & E2 & E3 & _).
  destruct (IH _ E1) as (F1 & F2 & F3).
  repeat split; congruence.
Qed.

(** A status that allows a body is not informational. *)
Lemma informational_body (code : Z) :
  bodyAllowedForStatus code = true -> informational code = false.
Proof.
  unfold bodyAllowedForStatus, informational.
  destruct ((100 <=? code) && (code <=? 199)); [discriminate|reflexivity].
Qed.

(** [WriteHeader] with a code that starts a response. *)
Lemma WriteHeader_run (code : Z) (st : state) :
  checkWriteHeaderCode code = true -> informational code = false ->
  WriteHeader code st = (Return tt, {| w := sendHeader code (w st); trace := trace st |}).
Proof.
  intros Hcheck Hfinal. unfold WriteHeader. rewrite Hcheck, Hfinal.
  destruct (wroteHeader (w st)); reflexivity.
Qed.


(** [WriteHeader] with a code that has not three digits, on a response not
    yet started. *)
Lemma WriteHeader_invalid (code : Z) (st : state) :
  wroteHeader (w st) = false -> checkWriteHeaderCode code = false ->
  WriteHeader code st =
    (Panic (errorString ("invalid WriteHeader code " ++ GoStrings.itoa code)), st).
Proof.
  intros Hfresh Hcheck. unfold WriteHeader. rewrite Hfresh, Hcheck. reflexivity.
Qed.

(** [WriteHeader] makes no call that leaves the handler. *)
Lemma WriteHeader_trace (code : Z) (st : state) :
  trace (snd (WriteHeader code st)) = trace st.
Proof.
  unfold WriteHeader.
  destruct (wroteHeader (w st)); [reflexivity|].
  destruct (checkWriteHeaderCode code); [|reflexivity].
  destruct (informational code); reflexivity.
Qed.

(** [WriteHeader] with a code of three digits runs to its end. *)
Lemma WriteHeader_returns (code : Z) (st : state) :
  checkWriteHeaderCode code = true ->
  exists st', WriteHeader code st = (Return tt, st') /\ trace st' = trace st.
Proof.
  intros Hcheck. unfold WriteHeader. rewrite Hcheck.
  destruct (wroteHeader (w st)); [eexists; split; reflexivity|].
  destruct (informational code); eexists; split; reflexivity.
Qed.

Section engine.
Context `{Template.Engine}.

(** Executing a template writes its chunks and touches nothing else. *)
Lemma ExecuteTo_run (t : Template.template) (d : Template.data) (st : state) :
  Template.ExecuteTo t d st =
    (Return (snd (Template.Execute t d)),
     {| w := writes (fst (Template.Execute t d)) (w st); trace := trace st |}).
Proof.
  unfold Template.ExecuteTo.
  destruct (Template.Execute t d) as [chunks err]. simpl.
  revert st. induction chunks as [|c rest IH]; intros st; simpl.
  - destruct st; reflexivity.
  - unfold mbind, action_bind, bind, Write, onWriter at 1. simpl.
    rewrite IH. reflexivity.
Qed.

End engine.
End WriterFacts.

(** ** The writers of [helpers.go] *)

Module UtilFacts.
Import GoStrings HTTP WriterFacts.

Section writers.
Context `{JSON.Lexer} `{Template.Engine}.

(** The success envelope as the encoder sees it. *)
Lemma marshal_success_envelope {R : Type} `{JSON.Marshaler R} (r : R) :
  JSON.marshalAny
    (JSON.anyMap [ ("payload", JSON.box r); ("error", JSON.anyString EmptyString) ])
  = match JSON.Marshal r with
    | Ok j => Ok (JSON.JObject [ ("error", JSON.JString EmptyString); ("payload", j) ])
    | Err e => Err e
    end.
Proof.
  unfold JSON.box. simpl. destruct (JSON.Marshal r); reflexivity.
Qed.

(** The error envelope always encodes. *)
Lemma marshal_error_envelope (msg : string) :
  JSON.marshalAny
    (JSON.anyMap [ ("payload", JSON.anyMap []); ("error", JSON.anyString msg) ])
  = Ok (JSON.JObject [ ("error", JSON.JString msg); ("payload", JSON.JObject []) ]).
Proof. reflexivity. Qed.

(** What [WriteError] leaves when its [WriteHeader] call goes through. *)
Lemma WriteError_through (code : Z) (e : error) (st : state) :
  WriteHeader code {| w := setHeader "Content-Type" "application/json" (w st);
                      trace := trace st |}
  = (Return tt,
     {| w := sendHeader code (setHeader "Content-Type" "application/json" (w st));
        trace := trace st |}) ->
  util.WriteError code e st =
    (Return None,
     {| w := write
               (JSON.line (JSON.JObject [ ("error", JSON.JString (Error e));
                                          ("payload", JSON.JObject []) ]))
               (sendHeader code (setHeader "Content-Type" "application/json" (w st)));
        trace := trace st ++ [DebugLog e "Request Error"] |}).
Proof.
  intros Hheader. unfold util.WriteError, util.Encode.
  rewrite marshal_error_envelope.
  unfold mbind, action_bind, bind, HeaderSet, onWriter at 1.
  rewrite Hheader. reflexivity.
Qed.

(** [WriteError] with a status that starts a response, run from any
    state. *)
Lemma WriteError_run (code : Z) (e : error) (st : state) :
  checkWriteHeaderCode code = true -> informational code = false ->
  util.WriteError code e st =
    (Return None,
     {| w := write
               (JSON.line (JSON.JObject [ ("error", JSON.JString (Error e));
                                          ("payload", JSON.JObject []) ]))
               (sendHeader code (setHeader "Content-Type" "application/json" (w st)));
        trace := trace st ++ [DebugLog e "Request Error"] |}).
Proof.
  intros Hcheck Hfinal. apply WriteError_through.
  exact (WriteHeader_run code {| w := _; trace := _ |} Hcheck Hfinal).
Qed.


(** What [WriteJSON] leaves when its [WriteHeader] call goes through:
    nothing is written when the payload does not encode, and the caller is
    told nothing either way. *)
Lemma WriteJSON_through {R : Type} `{JSON.Marshaler R} (code : Z) (r : R) (st : state) :
  WriteHeader code {| w := setHeader "Content-Type" "application/json" (w st);
                      trace := trace st |}
  = (Return tt,
     {| w := sendHeader code (setHeader "Content-Type" "application/json" (w st));
        trace := trace st |}) ->
  util.WriteJSON code r st =
    (Return None,
     {| w := match JSON.Marshal r with
             | Ok j =>
                 write
                   (JSON.line (JSON.JObject [ ("error", JSON.JString EmptyString);
                                              ("payload", j) ]))
                   (sendHeader code (setHeader "Content-Type" "application/json" (w st)))
             | Err _ =>
                 sendHeader code (setHeader "Content-Type" "application/json" (w st))
             end;
        trace := trace st |}).
Proof.
  intros Hheader. unfold util.WriteJSON, util.Encode.
  rewrite marshal_success_envelope.
  unfold mbind, action_bind, bind, HeaderSet, onWriter at 1.
  rewrite Hheader.
  destruct (JSON.Marshal r); reflexivity.
Qed.

(** [WriteJSON] with a status that starts a response, run from any state. *)
Lemma WriteJSON_run {R : Type} `{JSON.Marshaler R} (code : Z) (r : R) (st : state) :
  checkWriteHeaderCode code = true -> informational code = false ->
  util.WriteJSON code r st =
    (Return None,
     {| w := match JSON.Marshal r with
             | Ok j =>
                 write
                   (JSON.line (JSON.JObject [ ("error", JSON.JString EmptyString);
                                              ("payload", j) ]))
                   (sendHeader code (setHeader "Content-Type" "application/json" (w st)))
             | Err _ =>
                 sendHeader code (setHeader "Content-Type" "application/json" (w st))
             end;
        trace := trace st |}).
Proof.
  intros Hcheck Hfinal. apply WriteJSON_through.
  exact (WriteHeader_run code {| w := _; trace := _ |} Hcheck Hfinal).
Qed.


(** [RenderError] with a usable error page and a status that starts a
    response: the status goes out as given, as [text/html], and no call
    leaves the handler. *)
Lemma RenderError_run (r : Template.FS) (tmpl : Template.template)
    (code : Z) (e : error) (st : state) :
  Template.ParseFS r "web/error.html" = Ok tmpl ->
  wroteHeader (w st) = false ->
  checkWriteHeaderCode code = true -> informational code = false ->
  exists res st',
    util.RenderError r code e st = (Return res, st')
    /\ responded st' code
    /\ contentType st' = Some "text/html"
    /\ trace st' = trace st.
Proof.
  intros Hparse Hfresh Hcheck Hfinal.
  unfold util.RenderError. rewrite Hparse.
  unfold mbind, action_bind, bind, Template.Must, mret, action_ret, ret,
    HeaderSet, onWriter at 1.
  rewrite (WriteHeader_run code _ Hcheck Hfinal).
  rewrite ExecuteTo_run. cbn [w trace].
  set (d := [("Status", _); ("Error", _)]).
  set (rw := sendHeader code _).
  assert (Hrw : wroteHeader rw = true /\ status rw = code
                /\ sent rw = <["Content-Type" := "text/html"]> (header (w st))).
  { subst rw. unfold sendHeader, setHeader. simpl. rewrite Hfresh. simpl. auto. }
  destruct Hrw as (R1 & R2 & R3).
  destruct (writes_started (fst (Template.Execute tmpl d)) rw R1) as (W1 & W2 & W3).
  destruct (snd (Template.Execute tmpl d)) as [err|];
    eexists _, _; (split; [reflexivity|]); unfold responded, contentType; simpl;
    rewrite W1, W2, W3, R2, R3, lookup_insert_eq; auto.
Qed.

(** Without a usable error page [RenderError] panics before it writes. *)
Lemma RenderError_panics (r : Template.FS) (code : Z) (e perr : error) (st : state) :
  Template.ParseFS r "web/error.html" = Err perr ->
  util.RenderError r code e st = (Panic perr, st).
Proof.
  intros Hparse. unfold util.RenderError. rewrite Hparse. reflexivity.
Qed.

End writers.

(** ** Field validation *)

Lemma len_empty (s : string) : s = EmptyString <-> len s = 0.
Proof.
  unfold len. destruct s; simpl; split; intros E; try reflexivity; try discriminate; lia.
Qed.

Lemma ValidateStruct_None (fields : list Validation.FieldRules) :
  Validation.ValidateStruct fields = None <-> Validation.collect fields = ∅.
Proof.
  unfold Validation.ValidateStruct.
  destruct (decide (Validation.collect fields = ∅)) as [E|E]; split; intros Hyp;
    try reflexivity; try discriminate; try exact E. contradiction.
Qed.

Lemma check_Required (value : string) :
  Validation.check Validation.Required value = None <-> value <> EmptyString.
Proof.
  unfold Validation.check. destruct (String.eqb_spec value EmptyString); split; intros Hyp;
    try reflexivity; try discriminate; try assumption. contradiction.
Qed.

Lemma check_Length_16_128 (value : string) :
  value <> EmptyString ->
  (Validation.check (Validation.Length 16 128) value = None <-> 16 <= len value <= 128).
Proof.
  intros Hne. unfold Validation.check.
  destruct (String.eqb_spec value EmptyString) as [E|_]; [contradiction|].
  cbn -[len]. rewrite orb_false_r.
  destruct (Z.ltb_spec (len value) 16), (Z.ltb_spec 128 (len value)); cbn;
    split; intros Hyp; try reflexivity; try discriminate; lia.
Qed.

(** C8. A sign-in request passes field validation exactly when the
    username is not empty and the password is 16 to 128 bytes long; so a
    password of length 10 fails, and one of length 16 passes when the
    username is given. *)
Theorem C8_signin_validation (maxSize : Z) (v : util.SigninRequest) :
  let verdict := util.ValidateBody maxSize (util.ofSigninRequest v) in
  (verdict = None <->
     util.Username v <> EmptyString /\ 16 <= len (util.Password v) <= 128)
  /\ (len (util.Password v) = 10 -> verdict <> None)
  /\ (util.Username v <> EmptyString -> len (util.Password v) = 16 -> verdict = None).
Proof.
  intros verdict.
  assert (Hiff : verdict = None <->
            util.Username v <> EmptyString /\ 16 <= len (util.Password v) <= 128).
  { subst verdict. unfold util.ValidateBody. rewrite ValidateStruct_None.
    unfold Validation.collect. cbn [fold_left Validation.fieldValue Validation.fieldRules
                                     Validation.fieldName Validation.Validate].
    pose proof (check_Required (util.Username v)) as HU.
    pose proof (check_Required (util.Password v)) as HP.
    destruct (Validation.check Validation.Required (util.Username v)) as [eu|].
    - split.
      + destruct (Validation.check Validation.Required (util.Password v));
          [|destruct (Validation.check _ (util.Password v))]; intros Hyp;
          try (apply insert_non_empty in Hyp; contradiction).
      + intros [Hu _]. apply HU in Hu. discriminate.
    - destruct (Validation.check Validation.Required (util.Password v)) as [ep|].
      + split.
        * intros Hyp. apply insert_non_empty in Hyp. contradiction.
        * intros [_ Hl]. assert (util.Password v <> EmptyString) as Hne.
          { intros E. apply len_empty in E. lia. }
          apply HP in Hne. discriminate.
      + assert (util.Password v <> EmptyString) as Hne by (apply HP; reflexivity).
        pose proof (check_Length_16_128 _ Hne) as HL.
        destruct (Validation.check (Validation.Length 16 128) (util.Password v)).
        * split.
          -- intros Hyp. apply insert_non_empty in Hyp. contradiction.
          -- intros [_ Hl]. apply HL in Hl. discriminate.
        * split; [|reflexivity]. intros _. split; [apply HU; reflexivity|].
          apply HL. reflexivity. }
  split; [exact Hiff|]. split.
  - intros H10 Hn. apply Hiff in Hn. lia.
  - intros Hu H16. apply Hiff. split; [exact Hu|lia].
Qed.

(** ** Decoding the body *)

Section decoding.
Context `{JSON.Lexer} `{util.Multipart}.

(** Storing the members of a flat object of strings inserts them in order. *)
Lemma fold_store_strings (pairs : list (string * string)) (m : gmap string string)
    (saved : option error) :
  fold_left JSON.storeMember (map (fun kv => (fst kv, JSON.JString (snd kv))) pairs) (m, saved)
  = (list_to_map (rev pairs) ∪ m, saved).
Proof.
  revert m. induction pairs as [|[k v] rest IH]; intros m; simpl.
  - rewrite (left_id ∅ (∪)). reflexivity.
  - rewrite IH. f_equal.
    rewrite list_to_map_app. simpl. rewrite insert_empty.
    rewrite <- (assoc (∪)). rewrite <- insert_union_singleton_l. reflexivity.
Qed.

(** The decoder's error stays once it is set. *)
Lemma fold_store_saved (members : list (string * JSON.value)) (m : gmap string string)
    (e : error) :
  snd (fold_left JSON.storeMember members (m, Some e)) = Some e.
Proof.
  revert m. induction members as [|[k v] rest IH]; intros m; simpl; [reflexivity|].
  destruct v; apply IH.
Qed.

Lemma fold_store_error (members : list (string * JSON.value)) (m : gmap string string) :
  snd (fold_left JSON.storeMember members (m, None)) = None <-> Forall JSON.storable members.
Proof.
  revert m. induction members as [|[k v] rest IH]; intros m; simpl.
  - split; [constructor | reflexivity].
  - destruct v; simpl;
      try (rewrite fold_store_saved; split; [discriminate|];
           intros Hall; inversion Hall as [|? ? [[s Hs]|Hn] _]; discriminate).
    + rewrite IH. split; [intros Hr; constructor; [right; reflexivity|exact Hr]
                         | intros Hall; inversion Hall; assumption].
    + rewrite IH. split; [intros Hr; constructor; [left; eexists; reflexivity|exact Hr]
                         | intros Hall; inversion Hall; assumption].
Qed.

Lemma HandleBody_json (maxSize : Z) (r : Request) (members : list (string * JSON.value)) :
  index (Split (HeaderGet r "Content-Type") ";"%char) 0 = "application/json" ->
  JSON.scan (Body r) = Ok (JSON.JObject members) ->
  util.HandleBody maxSize r =
    match fold_left JSON.storeMember members (∅, None) with
    | (_, Some err) => ({| util.Content := EmptyString |}, Some err)
    | (resp, None) => ({| util.Content := default EmptyString (resp !! "content") |}, None)
    end.
Proof.
  intros Htoken Hscan. unfold util.HandleBody. rewrite Htoken. simpl.
  unfold JSON.Decode. rewrite Hscan. reflexivity.
Qed.

(** C5. With the primary token [application/json] and a body that is a
    flat object of strings, the request comes back with the value the
    object gives ["content"] (the last one, should the key repeat), the
    empty string when the key is absent, and no error.  With any primary
    token other than [application/json] and [multipart/form-data] the
    request comes back empty, and no error. *)
Theorem C5_body_decoder (maxSize : Z) (r : Request) :
  let token := index (Split (HeaderGet r "Content-Type") ";"%char) 0 in
  (forall pairs : list (string * string),
     token = "application/json" ->
     JSON.scan (Body r) =
       Ok (JSON.JObject (map (fun kv => (fst kv, JSON.JString (snd kv))) pairs)) ->
     let mapping : gmap string string := list_to_map (rev pairs) in
     util.HandleBody maxSize r =
       ({| util.Content := default EmptyString (mapping !! "content") |}, None)
     /\ (mapping !! "content" = None ->
         util.HandleBody maxSize r = ({| util.Content := EmptyString |}, None)))
  /\ (token <> "application/json" -> token <> "multipart/form-data" ->
      util.HandleBody maxSize r = ({| util.Content := EmptyString |}, None)).
Proof.
  intros token. split.
  - intros pairs Htoken Hscan mapping.
    assert (E : util.HandleBody maxSize r =
                ({| util.Content := default EmptyString (mapping !! "content") |}, None)).
    { rewrite (HandleBody_json maxSize r _ Htoken Hscan).
      rewrite fold_store_strings. rewrite (right_id ∅ (∪)). reflexivity. }
    split; [exact E|]. intros Habsent. rewrite E, Habsent. reflexivity.
  - intros Hj Hm. unfold util.HandleBody. fold token.
    destruct (String.eqb_spec token "application/json"); [contradiction|].
    destruct (String.eqb_spec token "multipart/form-data"); [contradiction|].
    reflexivity.
Qed.

(** C10 (as amended). With the primary token [application/json] and a body
    that is a JSON object, the decoder reports an error, together with the
    empty request, exactly when some member is neither a string nor
    [null]; nothing is coerced into a string.  A [null] member raises no
    error. *)
Theorem C10_non_string_members (maxSize : Z) (r : Request)
    (members : list (string * JSON.value)) :
  index (Split (HeaderGet r "Content-Type") ";"%char) 0 = "application/json" ->
  JSON.scan (Body r) = Ok (JSON.JObject members) ->
  (Exists (fun kv => ~ JSON.storable kv) members ->
   exists err, util.HandleBody maxSize r = ({| util.Content := EmptyString |}, Some err))
  /\ (Forall JSON.storable members -> snd (util.HandleBody maxSize r) = None).
Proof.
  intros Htoken Hscan. rewrite (HandleBody_json maxSize r _ Htoken Hscan).
  pose proof (fold_store_error members ∅) as Hfold.
  destruct (fold_left JSON.storeMember members (∅, None)) as [resp [err|]]; simpl in *.
  - split.
    + intros _. exists err. reflexivity.
    + intros Hall. apply Hfold in Hall. discriminate.
  - split; [|reflexivity].
    intros Hex. assert (Hall : Forall JSON.storable members) by (apply Hfold; reflexivity).
    apply Exists_exists in Hex. destruct Hex as (kv & Hin & Hn).
    rewrite Forall_forall in Hall. destruct (Hn (Hall _ Hin)).
Qed.

End decoding.

(** ** The JSON writers *)

Section envelopes.
Context `{JSON.Lexer}.

Lemma line_not_empty (j : JSON.value) : JSON.line j <> EmptyString.
Proof.
  unfold JSON.line. destruct (JSON.render j); discriminate.
Qed.

(** C4 (as amended). On a response not yet started, and for a status that
    [WriteHeader] accepts and that allows a body (three digits; not 1xx,
    204 or 304), [WriteJSON] with a payload the encoder can encode returns
    [nil], having sent the given status, the Content-Type
    [application/json] and exactly the envelope with the members [payload]
    (the encoded payload) and [error] (the empty string); [WriteError]
    returns [nil], having sent, for every error, the given status, the
    same Content-Type and exactly the envelope with the empty object as
    [payload] and the error's message as [error].  An object's members
    have no order; the encoder writes them by key. *)
Theorem C4_json_envelopes {R : Type} `{JSON.Marshaler R}
    (code : Z) (r : R) (j : JSON.value) (e : error) (st : state) :
  wroteHeader (w st) = false ->
  checkWriteHeaderCode code = true ->
  bodyAllowedForStatus code = true ->
  let ok := util.WriteJSON code r st in
  let ko := util.WriteError code e st in
  (JSON.Marshal r = Ok j ->
   fst ok = Return None
   /\ responded (snd ok) code
   /\ contentType (snd ok) = Some "application/json"
   /\ body (w (snd ok)) =
        (body (w st)
         ++ JSON.line (JSON.JObject [ ("error", JSON.JString EmptyString); ("payload", j) ]))%string)
  /\ (fst ko = Return None
      /\ responded (snd ko) code
      /\ contentType (snd ko) = Some "application/json"
      /\ body (w (snd ko)) =
           (body (w st)
            ++ JSON.line (JSON.JObject [ ("error", JSON.JString (Error e));
                                         ("payload", JSON.JObject []) ]))%string).
Proof.
  intros Hfresh Hcheck Hbody ok ko. subst ok ko.
  pose proof (informational_body code Hbody) as Hfinal.
  rewrite (WriteJSON_run code r st Hcheck Hfinal), (WriteError_run code e st Hcheck Hfinal).
  split; [intros Henc; rewrite Henc|]; simpl;
    unfold responded, contentType, write, sendHeader, setHeader; simpl;
    rewrite Hfresh; simpl; rewrite lookup_insert_eq; repeat split; reflexivity.
Qed.

End envelopes.

End UtilFacts.

(** ** The retrieval handlers *)

Module ServerFacts.
Import GoStrings HTTP WriterFacts UtilFacts SplitFacts.

Section handlers.
Context `{JSON.Lexer} `{Template.Engine} `{util.Renderers}
        `{config.Global} `{database.Model}.
Context (resources : Template.FS).

(** The guard the three handlers share, read as a proposition. *)
Lemma guard_spec (s : server.Server) (id : string) :
  negb (len id =? config.IDLength (server.Config s))
  && negb (Contains (config.Documents (server.Config s)) id) = false
  <-> server.WellFormed s id.
Proof.
  unfold server.WellFormed.
  rewrite andb_false_iff, !negb_false_iff, Z.eqb_eq, Contains_In. reflexivity.
Qed.

Lemma guard_true (s : server.Server) (id : string) :
  ~ server.WellFormed s id ->
  negb (len id =? config.IDLength (server.Config s))
  && negb (Contains (config.Documents (server.Config s)) id) = true.
Proof.
  intros Hn. apply not_false_iff_true. rewrite guard_spec. exact Hn.
Qed.

(** *** Calls that leave the handler *)

Lemma quiet_ret {A : Type} (a : A) : quiet (mret a).
Proof. intros st. reflexivity. Qed.

Lemma quiet_bind {A B : Type} (c : action A) (k : A -> action B) :
  quiet c -> (forall a, quiet (k a)) -> quiet (c ≫= k).
Proof.
  intros Hc Hk st. unfold mbind, action_bind, bind.
  specialize (Hc st). destruct (c st) as [[a|e] st']; simpl in *.
  - rewrite Hk. exact Hc.
  - exact Hc.
Qed.

Lemma quiet_onWriter (f : ResponseWriter -> ResponseWriter) : quiet (onWriter f).
Proof. intros st. reflexivity. Qed.

Lemma lookups_app (st : state) (ev : event) :
  lookups {| w := w st; trace := trace st ++ [ev] |} =
  (lookups st ++ match ev with GetDocumentCall id => [id] | _ => [] end)%list.
Proof.
  unfold lookups. simpl. rewrite omap_app. simpl.
  destruct ev; simpl; rewrite ?app_nil_r; reflexivity.
Qed.

Lemma quiet_emit (ev : event) :
  (forall id, ev <> GetDocumentCall id) -> quiet (emit ev).
Proof.
  intros Hev st. unfold emit. simpl. rewrite lookups_app.
  destruct ev; try apply app_nil_r. destruct (Hev id eq_refl).
Qed.

Lemma quiet_same_trace {A : Type} (c : action A) :
  (forall st, trace (snd (c st)) = trace st) -> quiet c.
Proof. intros Hc st. unfold lookups. rewrite Hc. reflexivity. Qed.

Lemma ExecuteTo_trace (t : Template.template) (d : Template.data) (st : state) :
  trace (snd (Template.ExecuteTo t d st)) = trace st.
Proof. rewrite ExecuteTo_run. reflexivity. Qed.

Lemma RenderError_trace (code : Z) (e : error) (st : state) :
  trace (snd (util.RenderError resources code e st)) = trace st.
Proof.
  unfold util.RenderError.
  destruct (Template.ParseFS resources "web/error.html") as [tmpl|perr]; [|reflexivity].
  unfold mbind, action_bind, bind, Template.Must, mret, action_ret, ret,
    HeaderSet, onWriter at 1.
  set (st0 := {| w := setHeader "Content-Type" "text/html" (w st); trace := trace st |}).
  pose proof (WriteHeader_trace code st0) as Hheader.
  destruct (WriteHeader code st0) as [[[]|perr] st1]; [|exact Hheader].
  rewrite ExecuteTo_run. cbn [snd] in *.
  destruct (snd (Template.Execute tmpl _)); exact Hheader.
Qed.

Lemma quiet_RenderError (code : Z) (e : error) :
  quiet (util.RenderError resources code e ;; mret tt).
Proof.
  apply quiet_bind; [|intros; apply quiet_ret].
  apply quiet_same_trace. apply RenderError_trace.
Qed.

Lemma quiet_ExecuteTo (t : Template.template) (d : Template.data) :
  quiet (Template.ExecuteTo t d).
Proof. apply quiet_same_trace. apply ExecuteTo_trace. Qed.

Ltac quiet_step :=
  lazymatch goal with
  | |- quiet (mret _) => apply quiet_ret
  | |- quiet (util.RenderError _ _ _) => apply quiet_same_trace, RenderError_trace
  | |- quiet (Template.ExecuteTo _ _) => apply quiet_ExecuteTo
  | |- quiet (emit _) => apply quiet_emit; discriminate
  | |- quiet (onWriter _) => apply quiet_onWriter
  | |- quiet (HeaderSet _ _) => apply quiet_onWriter
  | |- quiet (WriteHeader _) => apply quiet_same_trace, WriteHeader_trace
  | |- quiet (Write _) => apply quiet_onWriter
  | |- quiet (_ ≫= _) => apply quiet_bind; [|intros]
  | |- quiet (match ?x with _ => _ end) => destruct x
  | |- quiet (let _ := _ in _) => cbv zeta
  end.

Lemma getDocument_run (s : server.Server) (id : string) (st : state) :
  server.getDocument s id st =
    (Return (database.GetDocument (server.Database s) id),
     {| w := w st; trace := trace st ++ [GetDocumentCall id] |}).
Proof. reflexivity. Qed.

Lemma bind_run {A B : Type} (c : action A) (k : A -> action B) (st st' : state) (a : A) :
  c st = (Return a, st') -> (c ≫= k) st = k a st'.
Proof. intros E. unfold mbind, action_bind, bind. rewrite E. reflexivity. Qed.

Lemma Static_looksUp (s : server.Server) (r : Request) :
  let id := index (Split (URLParam r "document") "."%char) 0 in
  server.WellFormed s id ->
  server.looksUp (server.StaticDocument resources s r) id.
Proof.
  intros id Hid. apply guard_spec in Hid.
  unfold server.looksUp, final, run, server.StaticDocument.
  fold id. rewrite Hid.
  erewrite bind_run by apply getDocument_run.
  match goal with |- lookups (snd (?k ?st)) = _ =>
    assert (Hq : quiet k) end.
  { destruct (database.GetDocument (server.Database s) id) as [document err].
    repeat quiet_step. }
  rewrite Hq. reflexivity.
Qed.

Lemma Static_rejects (s : server.Server) (r : Request) (tmpl : Template.template) :
  let id := index (Split (URLParam r "document") "."%char) 0 in
  Template.ParseFS resources "web/error.html" = Ok tmpl ->
  ~ server.WellFormed s id ->
  server.rejects (server.StaticDocument resources s r) StatusBadRequest.
Proof.
  intros id Htmpl Hid. apply guard_true in Hid.
  unfold server.rejects, final, run, server.StaticDocument.
  fold id. rewrite Hid.
  edestruct (RenderError_run resources tmpl StatusBadRequest) as (res & st' & E & R & _ & T);
    [exact Htmpl | | reflexivity | reflexivity | ].
  2:{ erewrite bind_run by exact E. simpl. split; [exact R|].
      unfold lookups. rewrite T. reflexivity. }
  reflexivity.
Qed.

Lemma Fetch_looksUp (s : server.Server) (r : Request) :
  let id := URLParam r "document" in
  server.WellFormed s id ->
  server.looksUp (server.FetchDocument s r) id.
Proof.
  intros id Hid. apply guard_spec in Hid.
  unfold server.looksUp, final, run, server.FetchDocument.
  fold id. rewrite Hid.
  erewrite bind_run by apply getDocument_run.
  destruct (database.GetDocument (server.Database s) id) as [document [err|]].
  - destruct (IsNoRows err); erewrite bind_run by (apply WriteError_run; reflexivity); reflexivity.
  - erewrite bind_run by (apply WriteJSON_run; reflexivity). reflexivity.
Qed.

Lemma Fetch_rejects (s : server.Server) (r : Request) :
  let id := URLParam r "document" in
  ~ server.WellFormed s id ->
  server.rejects (server.FetchDocument s r) StatusBadRequest.
Proof.
  intros id Hid. apply guard_true in Hid.
  unfold server.rejects, final, run, server.FetchDocument.
  fold id. rewrite Hid.
  erewrite bind_run by (apply WriteError_run; reflexivity).
  split; [split|]; reflexivity.
Qed.

Lemma Raw_looksUp (s : server.Server) (r : Request) :
  let id := URLParam r "document" in
  server.WellFormed s id ->
  server.looksUp (server.FetchRawDocument s r) id.
Proof.
  intros id Hid. apply guard_spec in Hid.
  unfold server.looksUp, final, run, server.FetchRawDocument.
  fold id. rewrite Hid.
  erewrite bind_run by apply getDocument_run.
  destruct (database.GetDocument (server.Database s) id) as [document [err|]];
    [destruct (IsNoRows err)|]; reflexivity.
Qed.

Lemma Raw_rejects (s : server.Server) (r : Request) :
  let id := URLParam r "document" in
  ~ server.WellFormed s id ->
  server.rejects (server.FetchRawDocument s r) StatusBadRequest.
Proof.
  intros id Hid. apply guard_true in Hid.
  unfold server.rejects, final, run, server.FetchRawDocument.
  fold id. rewrite Hid.
  erewrite bind_run by (apply WriteError_run; reflexivity).
  split; [split|]; reflexivity.
Qed.

Lemma WellFormed_dec (s : server.Server) (id : string) :
  server.WellFormed s id \/ ~ server.WellFormed s id.
Proof.
  destruct (negb (len id =? config.IDLength (server.Config s))
            && negb (Contains (config.Documents (server.Config s)) id)) eqn:E.
  - right. intros Hw. apply guard_spec in Hw. congruence.
  - left. apply guard_spec. exact E.
Qed.

(** Taking an id to the lookup and turning the request down exclude each
    other. *)
Lemma looksUp_not_rejects (h : action unit) (id : string) (code : Z) :
  server.looksUp h id -> server.rejects h code -> False.
Proof.
  unfold server.looksUp, server.rejects. intros E [_ F]. congruence.
Qed.

(** C1. In each of the three retrieval handlers the identifier passes
    validation (the handler goes on to ask the Document Accessor for it)
    if and only if its length is the configured length or it is one of
    the reserved identifiers; otherwise the handler answers 400 and the
    Document Accessor is never called.  The HTML handler applies the rule
    to the first dot-separated segment of the route parameter, the JSON
    and raw handlers to the parameter itself.  The HTML handler renders
    its answer through the embedded error page, [web/error.html], which has
    to parse for it to answer at all. *)
Theorem C1_identifier_validation
    (s : server.Server) (r : Request) (tmpl : Template.template) :
  let p := URLParam r "document" in
  let segment := index (Split p "."%char) 0 in
  let html := server.StaticDocument resources s r in
  let json := server.FetchDocument s r in
  let raw := server.FetchRawDocument s r in
  (Template.ParseFS resources "web/error.html" = Ok tmpl ->
   (server.looksUp html segment <-> server.WellFormed s segment)
   /\ (server.rejects html StatusBadRequest <-> ~ server.WellFormed s segment))
  /\ ((server.looksUp json p <-> server.WellFormed s p)
      /\ (server.rejects json StatusBadRequest <-> ~ server.WellFormed s p))
  /\ ((server.looksUp raw p <-> server.WellFormed s p)
      /\ (server.rejects raw StatusBadRequest <-> ~ server.WellFormed s p)).
Proof.
  intros p segment html json raw.
  pose proof (Static_looksUp s r) as HL. pose proof (Static_rejects s r tmpl) as HR.
  pose proof (Fetch_looksUp s r) as JL. pose proof (Fetch_rejects s r) as JR.
  pose proof (Raw_looksUp s r) as RL. pose proof (Raw_rejects s r) as RR.
  cbv zeta in HL, HR, JL, JR, RL, RR.
  fold p in HL, HR, JL, JR, RL, RR. fold segment in HL, HR.
  fold html in HL, HR. fold json in JL, JR. fold raw in RL, RR.
  assert (iffs : forall (h : action unit) (id : string),
             (server.WellFormed s id -> server.looksUp h id) ->
             (~ server.WellFormed s id -> server.rejects h StatusBadRequest) ->
             (server.looksUp h id <-> server.WellFormed s id)
             /\ (server.rejects h StatusBadRequest <-> ~ server.WellFormed s id)).
  { intros h id Hl Hr. split; split.
    - intros Hyp. destruct (WellFormed_dec s id) as [Hw|Hn]; [exact Hw|].
      destruct (looksUp_not_rejects _ _ _ Hyp (Hr Hn)).
    - exact Hl.
    - intros Hyp Hw. exact (looksUp_not_rejects _ _ _ (Hl Hw) Hyp).
    - exact Hr. }
  split; [intros Htmpl; apply iffs; [exact HL | exact (HR Htmpl)] |].
  split; apply iffs; assumption.
Qed.

(** What the HTML handler asks the Document Accessor for, whether or not
    its pages are usable. *)
Lemma Static_lookups (s : server.Server) (r : Request) :
  let segment := index (Split (URLParam r "document") "."%char) 0 in
  lookups (final (server.StaticDocument resources s r)) =
    if negb (len segment =? config.IDLength (server.Config s))
       && negb (Contains (config.Documents (server.Config s)) segment)
    then [] else [segment].
Proof.
  intros segment.
  destruct (negb _ && negb _) eqn:E.
  - unfold final, run, server.StaticDocument. fold segment. rewrite E.
    rewrite quiet_RenderError. reflexivity.
  - apply Static_looksUp. apply guard_spec. exact E.
Qed.

Lemma Fetch_lookups (s : server.Server) (r : Request) :
  let p := URLParam r "document" in
  lookups (final (server.FetchDocument s r)) =
    if negb (len p =? config.IDLength (server.Config s))
       && negb (Contains (config.Documents (server.Config s)) p)
    then [] else [p].
Proof.
  intros p.
  destruct (negb _ && negb _) eqn:E.
  - apply Fetch_rejects. intros Hw. apply guard_spec in Hw. fold p in Hw. congruence.
  - apply Fetch_looksUp. apply guard_spec. exact E.
Qed.

Lemma Raw_lookups (s : server.Server) (r : Request) :
  let p := URLParam r "document" in
  lookups (final (server.FetchRawDocument s r)) =
    if negb (len p =? config.IDLength (server.Config s))
       && negb (Contains (config.Documents (server.Config s)) p)
    then [] else [p].
Proof.
  intros p.
  destruct (negb _ && negb _) eqn:E.
  - apply Raw_rejects. intros Hw. apply guard_spec in Hw. fold p in Hw. congruence.
  - apply Raw_looksUp. apply guard_spec. exact E.
Qed.

(** C2. Past validation, a storage error decides the status by one test
    only: 404 when it is (or wraps) the not-found signal, 500 otherwise, in
    each of the three handlers (the HTML handler answering through its
    error page, [web/error.html]). *)
Theorem C2_storage_error_status
    (s : server.Server) (r : Request) (tmpl : Template.template)
    (document : database.Document) (err : error) :
  let p := URLParam r "document" in
  let segment := index (Split p "."%char) 0 in
  let code := if IsNoRows err then StatusNotFound else StatusInternalServerError in
  (Template.ParseFS resources "web/error.html" = Ok tmpl ->
   server.WellFormed s segment ->
   database.GetDocument (server.Database s) segment = (document, Some err) ->
   responded (final (server.StaticDocument resources s r)) code)
  /\ (server.WellFormed s p ->
      database.GetDocument (server.Database s) p = (document, Some err) ->
      responded (final (server.FetchDocument s r)) code
      /\ responded (final (server.FetchRawDocument s r)) code).
Proof.
  intros p segment code. split.
  - intros Htmpl Hw Hget. apply guard_spec in Hw.
    unfold final, run, server.StaticDocument. fold p segment. rewrite Hw.
    erewrite bind_run by apply getDocument_run. rewrite Hget.
    subst code. destruct (IsNoRows err);
      match goal with |- responded (snd ((util.RenderError _ ?c ?e ;; _) ?st)) _ =>
        destruct (RenderError_run resources tmpl c e st Htmpl eq_refl eq_refl eq_refl)
          as (res & st' & E & R & _);
        erewrite bind_run by exact E; exact R
      end.
  - intros Hw Hget. apply guard_spec in Hw. split.
    + unfold final, run, server.FetchDocument. fold p. rewrite Hw.
      erewrite bind_run by apply getDocument_run. rewrite Hget.
      subst code. destruct (IsNoRows err);
        erewrite bind_run by (apply WriteError_run; reflexivity); split; reflexivity.
    + unfold final, run, server.FetchRawDocument. fold p. rewrite Hw.
      erewrite bind_run by apply getDocument_run. rewrite Hget.
      subst code. destruct (IsNoRows err); split; reflexivity.
Qed.

(** C3. On the raw route a document that was fetched goes out with status
    200 as [text/plain], and the body is its stored content, byte for byte
    and nothing else. *)
Theorem C3_raw_body_is_content
    (s : server.Server) (r : Request) (document : database.Document) :
  let p := URLParam r "document" in
  server.WellFormed s p ->
  database.GetDocument (server.Database s) p = (document, None) ->
  let st := final (server.FetchRawDocument s r) in
  responded st StatusOK
  /\ contentType st = Some "text/plain"
  /\ body (w st) = database.Content document.
Proof.
  intros p Hw Hget st. apply guard_spec in Hw.
  subst st. unfold final, run, server.FetchRawDocument. fold p. rewrite Hw.
  erewrite bind_run by apply getDocument_run. rewrite Hget.
  split; [split|split]; reflexivity.
Qed.

Lemma In_lookups_if (b : bool) (id x : string) :
  In x (if b then [] else [id]) -> x = id.
Proof. destruct b; simpl; intuition congruence. Qed.

(** C9. On the HTML route the route parameter is cut at its first dot:
    validation and the Document Accessor get the text before it and never
    anything else, while the JSON and raw routes validate and look up the
    parameter as it came, dots included. *)
Theorem C9_html_route_strips_at_first_dot
    (s : server.Server) (r : Request) (a rest : string) :
  free "."%char a ->
  URLParam r "document" = a ++ "." ++ rest ->
  let p := a ++ "." ++ rest in
  let html := server.StaticDocument resources s r in
  let json := server.FetchDocument s r in
  let raw := server.FetchRawDocument s r in
  index (Split p "."%char) 0 = a
  /\ ((server.looksUp html a <-> server.WellFormed s a)
      /\ forall id, In id (lookups (final html)) -> id = a)
  /\ ((server.looksUp json p <-> server.WellFormed s p)
      /\ forall id, In id (lookups (final json)) -> id = p)
  /\ ((server.looksUp raw p <-> server.WellFormed s p)
      /\ forall id, In id (lookups (final raw)) -> id = p).
Proof.
  intros Hfree Hparam p html json raw.
  assert (Hseg : index (Split p "."%char) 0 = a).
  { rewrite index_Split_0. apply before_app. exact Hfree. }
  pose proof (Static_lookups s r) as HL.
  pose proof (Fetch_lookups s r) as JL.
  pose proof (Raw_lookups s r) as RL.
  cbv zeta in HL, JL, RL. rewrite Hparam in HL, JL, RL.
  fold p in HL, JL, RL. rewrite Hseg in HL. fold html in HL. fold json in JL. fold raw in RL.
  assert (iffs : forall (h : action unit) (id : string),
             lookups (final h) =
               (if negb (len id =? config.IDLength (server.Config s))
                   && negb (Contains (config.Documents (server.Config s)) id)
                then [] else [id]) ->
             (server.looksUp h id <-> server.WellFormed s id)
             /\ forall x, In x (lookups (final h)) -> x = id).
  { intros h id Hh. unfold server.looksUp. rewrite Hh. split.
    - rewrite <- guard_spec.
      destruct (negb (len id =? _) && _); split; intros Hyp; try discriminate Hyp; reflexivity.
    - intros x. apply In_lookups_if. }
  split; [exact Hseg|].
  split; [|split]; apply iffs; assumption.
Qed.

(** *** The extension hint *)

Lemma bind_trace {A B : Type} (c : action A) (k : A -> action B) (st : state) :
  (forall st0, trace (snd (c st0)) = trace st0) ->
  (forall a st0, trace (snd (k a st0)) = trace st0) ->
  trace (snd ((c ≫= k) st)) = trace st.
Proof.
  intros Hc Hk. unfold mbind, action_bind, bind.
  specialize (Hc st). destruct (c st) as [[a|e] st']; simpl in *.
  - rewrite Hk. exact Hc.
  - exact Hc.
Qed.

Lemma RenderError_then_trace (code : Z) (e : error) (st : state) :
  trace (snd ((util.RenderError resources code e ;; mret tt) st)) = trace st.
Proof.
  apply bind_trace; [apply RenderError_trace | reflexivity].
Qed.

(** The hint the code computes, by the number of dots in the parameter. *)
Lemma extension_cases (p : string) :
  let params := Split p "."%char in
  let extension := if (length params =? 2)%nat then index params 1 else EmptyString in
  (free "."%char p -> extension = EmptyString)
  /\ (forall id ext, free "."%char id -> free "."%char ext ->
        p = id ++ "." ++ ext -> extension = ext)
  /\ ((2 <= count p "."%char)%nat -> extension = EmptyString).
Proof.
  intros params extension. subst extension params.
  rewrite length_Split. split; [|split].
  - unfold free. intros ->. reflexivity.
  - intros id ext Hid Hext ->. 
    change (id ++ "." ++ ext) with (id ++ String "."%char ext).
    rewrite count_app. cbn [count]. rewrite Ascii.eqb_refl.
    unfold free in Hid, Hext. rewrite Hid, Hext. cbn [Nat.add Nat.eqb].
    rewrite Split_app by exact Hid. rewrite Split_free by exact Hext. reflexivity.
  - intros Hc. destruct (Nat.eqb_spec (S (count p "."%char)) 2); [lia|reflexivity].
Qed.

(** C7 (as amended). In code mode the extension hint handed to the syntax
    highlighter is the text after the dot when the route parameter holds
    exactly one dot, and the empty string when it holds none or more than
    one.  For a parameter [id.ext] with no dot in [id] and none in [ext]
    the hint is [ext]. *)
Theorem C7_extension_hint
    (s : server.Server) (r : Request) (document : database.Document)
    (t : Template.template) :
  let p := URLParam r "document" in
  let segment := index (Split p "."%char) 0 in
  server.WellFormed s segment ->
  database.GetDocument (server.Database s) segment = (document, None) ->
  QueryGet r "reader" <> "true" ->
  Template.ParseFS resources "web/document.html" = Ok t ->
  exists hint,
    hints (final (server.StaticDocument resources s r)) = [hint]
    /\ (free "."%char p -> hint = EmptyString)
    /\ (forall id ext, free "."%char id -> free "."%char ext ->
          p = id ++ "." ++ ext -> hint = ext)
    /\ ((2 <= count p "."%char)%nat -> hint = EmptyString).
Proof.
  intros p segment Hw Hget Hreader Hparse.
  exists (if (length (Split p "."%char) =? 2)%nat
          then index (Split p "."%char) 1 else EmptyString).
  split; [|apply extension_cases].
  apply guard_spec in Hw.
  unfold final, run, server.StaticDocument. fold p segment. rewrite Hw.
  erewrite bind_run by apply getDocument_run. rewrite Hget.
  destruct (String.eqb_spec (QueryGet r "reader") "true") as [E|_]; [contradiction|].
  rewrite Hparse.
  set (extension := if (length (Split p "."%char) =? 2)%nat then _ else _).
  erewrite bind_run by reflexivity.
  unfold hints.
  destruct (util.Highlight (database.Content document) extension) as [[highlighted css] [e|]].
  - rewrite RenderError_then_trace. reflexivity.
  - rewrite bind_trace; [reflexivity | apply ExecuteTo_trace |].
    intros [e|] st0; [apply RenderError_then_trace | reflexivity].
Qed.

(** C6. When the fetched document does not encode, [WriteJSON] has already
    sent status 200, writes no body and reports no error: the handler's
    500 branch is never taken and no error envelope goes out. *)
Theorem C6_encoding_failure_is_swallowed
    (s : server.Server) (r : Request) (document : database.Document) (e : error) :
  let p := URLParam r "document" in
  server.WellFormed s p ->
  database.GetDocument (server.Database s) p = (document, None) ->
  JSON.Marshal document = Err e ->
  let st := final (server.FetchDocument s r) in
  responded st StatusOK
  /\ body (w st) = EmptyString
  /\ trace st = [GetDocumentCall p].
Proof.
  intros p Hw Hget Henc st. apply guard_spec in Hw.
  subst st. unfold final, run, server.FetchDocument. fold p. rewrite Hw.
  erewrite bind_run by apply getDocument_run. rewrite Hget.
  erewrite bind_run by (apply WriteJSON_run; reflexivity).
  rewrite Henc. split; [split|split]; reflexivity.
Qed.

End handlers.
End ServerFacts.

(** ** More on field validation and body decoding *)

Module UtilMore.
Import GoStrings HTTP SplitFacts WriterFacts UtilFacts.

Lemma check_Length_2 (maxSize : Z) (value : string) :
  value <> EmptyString ->
  (Validation.check (Validation.Length 2 maxSize) value = None
   <-> 2 <= len value /\ (0 < maxSize -> len value <= maxSize)).
Proof.
  intros Hne. unfold Validation.check.
  destruct (String.eqb_spec value EmptyString) as [E|_]; [contradiction|].
  cbn -[len Z.ltb Z.eqb]. change (2 =? 0) with false. cbn [andb]. rewrite orb_false_r.
  change (0 <? 2) with true. cbn [andb].
  destruct (Z.ltb_spec (len value) 2), (Z.ltb_spec 0 maxSize),
    (Z.ltb_spec maxSize (len value)); cbn;
    split; intros Hyp; try reflexivity; try discriminate; lia.
Qed.

(** X1. A create request passes field validation exactly when its content
    is at least 2 bytes long and, if [maxSize] is positive, at most
    [maxSize] bytes long.  A [maxSize] of zero or less sets no upper bound. *)
Theorem X1_create_validation (maxSize : Z) (v : util.CreateRequest) :
  util.ValidateBody maxSize (util.ofCreateRequest v) = None <->
  2 <= len (util.Content v) /\ (0 < maxSize -> len (util.Content v) <= maxSize).
Proof.
  unfold util.ValidateBody. rewrite ValidateStruct_None.
  unfold Validation.collect.
  cbn [fold_left Validation.fieldValue Validation.fieldRules Validation.fieldName
       Validation.Validate].
  pose proof (check_Required (util.Content v)) as HR.
  destruct (Validation.check Validation.Required (util.Content v)) as [e|].
  - split.
    + intros Hyp. apply insert_non_empty in Hyp. contradiction.
    + intros [Hl _]. assert (util.Content v <> EmptyString) as Hne.
      { intros E. apply len_empty in E. lia. }
      apply HR in Hne. discriminate.
  - assert (util.Content v <> EmptyString) as Hne by (apply HR; reflexivity).
    pose proof (check_Length_2 maxSize _ Hne) as HL.
    destruct (Validation.check (Validation.Length 2 maxSize) (util.Content v)).
    + split.
      * intros Hyp. apply insert_non_empty in Hyp. contradiction.
      * intros Hl. apply HL in Hl. discriminate.
    + split; [|reflexivity]. intros _. apply HL. reflexivity.
Qed.

(** X2. A create request that fails field validation fails with one entry,
    for [Content], and its code follows from the content and [maxSize]:
    [required] for an empty content; otherwise the code the length rule was
    built with, which is out-of-range for a positive [maxSize] other
    than 2, exact-length for 2, too-short for 0 and, for a negative
    [maxSize], the code that asks for an empty value. *)
Theorem X2_create_error_code (maxSize : Z) (v : util.CreateRequest)
    (errs : Validation.Errors) :
  util.ValidateBody maxSize (util.ofCreateRequest v) = Some errs ->
  errs = {[ "Content" :=
              if String.eqb (util.Content v) EmptyString then Validation.ErrRequired
              else if maxSize <? 0 then Validation.ErrLengthEmptyRequired
              else if maxSize =? 0 then Validation.ErrLengthTooShort
              else if maxSize =? 2 then Validation.ErrLengthInvalid
              else Validation.ErrLengthOutOfRange ]}.
Proof.
  unfold util.ValidateBody, Validation.ValidateStruct.
  destruct (decide _) as [_|Hne]; [discriminate|]. intros E. injection E as <-.
  revert Hne. unfold Validation.collect.
  cbn [fold_left Validation.fieldValue Validation.fieldRules Validation.fieldName
       Validation.Validate Validation.check].
  destruct (String.eqb (util.Content v) EmptyString); [reflexivity|].
  destruct (_ || _); [|intros Hne; destruct (Hne eq_refl)].
  intros _. unfold Validation.buildLengthRuleError.
  change (2 =? 0) with false. change (0 <? 2) with true. cbn [andb].
  rewrite (Z.eqb_sym 2 maxSize).
  destruct (Z.ltb_spec maxSize 0), (Z.eqb_spec maxSize 0), (Z.ltb_spec 0 maxSize);
    try lia; try reflexivity.
Qed.

(** The verdict on a username and a password under the rules the sign-in
    and the sign-up request share. *)
Lemma credentials_None (username password : string) :
  Validation.ValidateStruct
    [ Validation.Field "Username" username [Validation.Required];
      Validation.Field "Password" password
        [Validation.Required; Validation.Length 16 128] ] = None
  <-> username <> EmptyString /\ 16 <= len password <= 128.
Proof.
  rewrite ValidateStruct_None. unfold Validation.collect.
  cbn [fold_left Validation.fieldValue Validation.fieldRules Validation.fieldName
       Validation.Validate].
  pose proof (check_Required username) as HU.
  pose proof (check_Required password) as HP.
  destruct (Validation.check Validation.Required username) as [eu|].
  - split.
    + destruct (Validation.check Validation.Required password);
        [|destruct (Validation.check _ password)]; intros Hyp;
        try (apply insert_non_empty in Hyp; contradiction).
    + intros [Hu _]. apply HU in Hu. discriminate.
  - destruct (Validation.check Validation.Required password) as [ep|].
    + split.
      * intros Hyp. apply insert_non_empty in Hyp. contradiction.
      * intros [_ Hl]. assert (password <> EmptyString) as Hne.
        { intros E. apply len_empty in E. lia. }
        apply HP in Hne. discriminate.
    + assert (password <> EmptyString) as Hne by (apply HP; reflexivity).
      pose proof (check_Length_16_128 _ Hne) as HL.
      destruct (Validation.check (Validation.Length 16 128) password).
      * split.
        -- intros Hyp. apply insert_non_empty in Hyp. contradiction.
        -- intros [_ Hl]. apply HL in Hl. discriminate.
      * split; [|reflexivity]. intros _. split; [apply HU; reflexivity|].
        apply HL. reflexivity.
Qed.

(** X3. A sign-up request passes field validation exactly when the username
    is not empty and the password is 16 to 128 bytes long, whatever
    [maxSize] is: the size limit of documents plays no part in it. *)
Theorem X3_signup_validation (maxSize : Z) (v : util.SignupRequest) :
  util.ValidateBody maxSize (util.ofSignupRequest v) = None <->
  util.SignupRequest_Username v <> EmptyString
  /\ 16 <= len (util.SignupRequest_Password v) <= 128.
Proof. apply credentials_None. Qed.

Lemma Validate_password (password : string) :
  Validation.Validate password [Validation.Required; Validation.Length 16 128] =
    if String.eqb password EmptyString then Some Validation.ErrRequired
    else if (len password <? 16) || (128 <? len password)
         then Some Validation.ErrLengthOutOfRange else None.
Proof.
  cbn [Validation.Validate Validation.check].
  destruct (String.eqb password EmptyString); [reflexivity|].
  change (0 <? 16) with true. change (0 <? 128) with true.
  change (16 =? 0) with false. cbn [andb]. rewrite orb_false_r.
  destruct (_ || _); reflexivity.
Qed.

(** X4. A failed sign-in validation names every failing field and no
    other: ["Username"] stands in the error map exactly when the username
    is empty (as a missing value), ["Password"] exactly when the password
    is empty (as a missing value) or its length is off (as a length
    error). *)
Theorem X4_every_failing_field (maxSize : Z) (v : util.SigninRequest)
    (errs : Validation.Errors) :
  util.ValidateBody maxSize (util.ofSigninRequest v) = Some errs ->
  errs !! "Username" =
    (if String.eqb (util.Username v) EmptyString then Some Validation.ErrRequired else None)
  /\ errs !! "Password" =
       (if String.eqb (util.Password v) EmptyString then Some Validation.ErrRequired
        else if (len (util.Password v) <? 16) || (128 <? len (util.Password v))
             then Some Validation.ErrLengthOutOfRange else None)
  /\ forall field, field <> "Username" -> field <> "Password" -> errs !! field = None.
Proof.
  unfold util.ValidateBody, Validation.ValidateStruct.
  destruct (decide _) as [_|_]; [discriminate|]. intros E. injection E as <-.
  unfold Validation.collect.
  cbn [fold_left Validation.fieldValue Validation.fieldRules Validation.fieldName].
  rewrite Validate_password.
  cbn [Validation.Validate Validation.check].
  unfold Validation.Errors.
  destruct (String.eqb (util.Username v) EmptyString);
    destruct (String.eqb (util.Password v) EmptyString);
    try destruct ((len (util.Password v) <? 16) || (128 <? len (util.Password v)));
    (split; [|split; [|intros field Hu Hp]]);
    repeat (rewrite lookup_insert_ne by congruence);
    rewrite ?lookup_insert_eq, ?lookup_empty; reflexivity.
Qed.

Section decoding.
Context `{JSON.Lexer} `{util.Multipart}.

(** X5. [HandleBody] never hands back content together with an error: when
    it reports an error, the request it returns is the empty one. *)
Theorem X5_error_means_empty_request (maxSize : Z) (r : Request) :
  snd (util.HandleBody maxSize r) <> None ->
  fst (util.HandleBody maxSize r) = {| util.Content := EmptyString |}.
Proof.
  unfold util.HandleBody.
  destruct (String.eqb _ "application/json").
  - destruct (JSON.Decode (Body r) ∅) as [resp [err|]]; simpl; [reflexivity|contradiction].
  - destruct (String.eqb _ "multipart/form-data"); [|reflexivity].
    destruct (util.ParseMultipartForm r _); simpl; [reflexivity|contradiction].
Qed.

(** X6. With the primary token [application/json]: a body the lexer
    rejects (not JSON, or empty) gives the empty request and the lexer's
    own error; the body [null] gives the empty request and no error; any
    other body that is not an object (a number, a string, an array, a
    boolean) gives the empty request and a type error. *)
Theorem X6_bodies_that_are_no_object (maxSize : Z) (r : Request) :
  index (Split (HeaderGet r "Content-Type") ";"%char) 0 = "application/json" ->
  (forall e, JSON.scan (Body r) = Err e ->
     util.HandleBody maxSize r = ({| util.Content := EmptyString |}, Some e))
  /\ (JSON.scan (Body r) = Ok JSON.JNull ->
      util.HandleBody maxSize r = ({| util.Content := EmptyString |}, None))
  /\ (forall j, JSON.scan (Body r) = Ok j ->
        j <> JSON.JNull -> (forall members, j <> JSON.JObject members) ->
        exists err,
          util.HandleBody maxSize r = ({| util.Content := EmptyString |}, Some err)).
Proof.
  intros Htoken. unfold util.HandleBody, JSON.Decode. rewrite Htoken. simpl.
  split; [|split].
  - intros e ->. reflexivity.
  - intros ->. reflexivity.
  - intros j -> Hnull Hobj. destruct j; simpl; eauto.
    + contradiction.
    + destruct (Hobj members eq_refl).
Qed.

(** The decoder's error after a run of members it stores without complaint
    is the error it had before. *)
Lemma fold_store_storable (members : list (string * JSON.value))
    (m : gmap string string) (saved : option error) :
  Forall JSON.storable members ->
  snd (fold_left JSON.storeMember members (m, saved)) = saved.
Proof.
  revert m. induction members as [|[k v] rest IH]; intros m Hall; [reflexivity|].
  inversion Hall as [|? ? [[s Hs]|Hn] Hrest]; subst; simpl in *; subst; simpl; apply IH, Hrest.
Qed.

(** X7. Of several members that are neither strings nor [null], the first
    in the text decides the error: the decoder reports the type error of
    that member's value, whatever follows it, and the request comes back
    empty. *)
Theorem X7_first_type_error_wins (maxSize : Z) (r : Request)
    (before after : list (string * JSON.value)) (key : string) (v : JSON.value) :
  index (Split (HeaderGet r "Content-Type") ";"%char) 0 = "application/json" ->
  JSON.scan (Body r) = Ok (JSON.JObject (before ++ (key, v) :: after)) ->
  Forall JSON.storable before ->
  ~ JSON.storable (key, v) ->
  util.HandleBody maxSize r =
    ({| util.Content := EmptyString |}, Some (JSON.UnmarshalTypeError v)).
Proof.
  intros Htoken Hscan Hbefore Hv.
  rewrite (HandleBody_json maxSize r _ Htoken Hscan).
  rewrite fold_left_app.
  pose proof (fold_store_storable before ∅ None Hbefore) as Hsaved.
  destruct (fold_left JSON.storeMember before (∅, None)) as [m saved].
  simpl in Hsaved. subst saved.
  assert (Hstep : exists m', JSON.storeMember (m, None) (key, v)
                             = (m', Some (JSON.UnmarshalTypeError v))).
  { destruct v; simpl; eauto.
    - destruct Hv. right. reflexivity.
    - destruct Hv. left. eexists. reflexivity. }
  destruct Hstep as [m' Hstep]. cbn [fold_left]. rewrite Hstep.
  pose proof (fold_store_saved after m' (JSON.UnmarshalTypeError v)) as Hafter.
  destruct (fold_left JSON.storeMember after _) as [resp saved].
  simpl in Hafter. subst saved. reflexivity.
Qed.

(** X8. What follows the first semicolon of the Content-Type plays no part
    in the decoding of a JSON body: a request sent as
    [application/json;<anything>] is decoded as the same body sent as
    [application/json]. *)
Theorem X8_parameters_are_ignored (maxSize : Z) (r r' : Request) (parameters : string) :
  HeaderGet r "Content-Type" = "application/json" ->
  HeaderGet r' "Content-Type" = "application/json" ++ ";" ++ parameters ->
  Body r' = Body r ->
  util.HandleBody maxSize r' = util.HandleBody maxSize r.
Proof.
  intros Hplain Hparams Hbody. unfold util.HandleBody.
  rewrite Hplain, Hparams, Hbody.
  rewrite !index_Split_0.
  change ("application/json" ++ ";" ++ parameters)
    with ("application/json" ++ String ";"%char parameters).
  rewrite before_app by reflexivity.
  rewrite before_free by reflexivity. reflexivity.
Qed.

(** X9. A create request whose Content-Type has a primary token other than
    [application/json] and [multipart/form-data] is decoded without error
    and then always fails field validation, with the one complaint that the
    content is missing. *)
Theorem X9_unsupported_type_fails_validation (maxSize : Z) (r : Request) :
  let token := index (Split (HeaderGet r "Content-Type") ";"%char) 0 in
  token <> "application/json" -> token <> "multipart/form-data" ->
  snd (util.HandleBody maxSize r) = None
  /\ util.ValidateBody maxSize (util.ofCreateRequest (fst (util.HandleBody maxSize r)))
     = Some (<["Content" := Validation.ErrRequired]> ∅).
Proof.
  intros token Hj Hm. unfold util.HandleBody. fold token.
  destruct (String.eqb_spec token "application/json"); [contradiction|].
  destruct (String.eqb_spec token "multipart/form-data"); [contradiction|].
  split; [reflexivity|].
  unfold util.ValidateBody, Validation.ValidateStruct, Validation.collect. cbn.
  destruct (decide _) as [E|_]; [|reflexivity].
  apply insert_non_empty in E. contradiction.
Qed.

End decoding.

Section started.
Context `{JSON.Lexer}.





(** X23. On a response not yet started, a status that has not three digits
    makes both JSON writers panic in [WriteHeader]: by then the
    Content-Type stands in the header map, but no header is sent, no body
    is written, and [WriteError] has not reached the debug log. *)
Theorem X23_invalid_status_panics {R : Type} `{JSON.Marshaler R}
    (code : Z) (r : R) (e : error) (st : state) :
  wroteHeader (w st) = false ->
  checkWriteHeaderCode code = false ->
  let invalid := errorString ("invalid WriteHeader code " ++ itoa code) in
  let st' := {| w := setHeader "Content-Type" "application/json" (w st);
                trace := trace st |} in
  util.WriteJSON code r st = (Panic invalid, st')
  /\ util.WriteError code e st = (Panic invalid, st').
Proof.
  intros Hfresh Hcheck invalid st'.
  assert (Hheader : WriteHeader code st' = (Panic invalid, st'))
    by (apply WriteHeader_invalid; [exact Hfresh | exact Hcheck]).
  split.
  - unfold util.WriteJSON.
    unfold mbind, action_bind, bind, HeaderSet, onWriter at 1.
    fold st'. rewrite Hheader. reflexivity.
  - unfold util.WriteError.
    unfold mbind, action_bind, bind, HeaderSet, onWriter at 1.
    fold st'. rewrite Hheader. reflexivity.
Qed.

End started.
End UtilMore.

(** ** More on the retrieval handlers *)

Module ServerMore.
Import GoStrings HTTP WriterFacts UtilFacts SplitFacts ServerFacts.

Lemma append_assoc (a b c : string) : ((a ++ b) ++ c = a ++ (b ++ c))%string.
Proof.
  induction a as [|x a IH]; [reflexivity|].
  change (String x ((a ++ b) ++ c) = String x (a ++ (b ++ c)))%string.
  f_equal. exact IH.
Qed.

Lemma append_nil_r (a : string) : (a ++ EmptyString = a)%string.
Proof.
  induction a as [|x a IH]; [reflexivity|].
  change (String x (a ++ EmptyString) = String x a)%string.
  f_equal. exact IH.
Qed.

Lemma concat_cons (c : string) (rest : list string) :
  String.concat EmptyString (c :: rest) = (c ++ String.concat EmptyString rest)%string.
Proof.
  destruct rest as [|d rest]; simpl; [|reflexivity].
  symmetry. apply append_nil_r.
Qed.

Lemma write_body (b : string) (rw : ResponseWriter) :
  body (write b rw) = (body rw ++ b)%string.
Proof. unfold write, sendHeader. destruct (wroteHeader rw); reflexivity. Qed.

(** Every chunk written lands at the end of the body, in order. *)
Lemma writes_body (chunks : list string) (rw : ResponseWriter) :
  body (writes chunks rw) = (body rw ++ String.concat EmptyString chunks)%string.
Proof.
  revert rw. induction chunks as [|c rest IH]; intros rw.
  - simpl. rewrite append_nil_r. reflexivity.
  - change (writes (c :: rest) rw) with (writes rest (write c rw)).
    rewrite IH, write_body, concat_cons, append_assoc. reflexivity.
Qed.

(** The first chunk written to a fresh response sends status 200 with the
    headers set so far. *)
Lemma writes_fresh (c : string) (chunks : list string) (rw : ResponseWriter) :
  wroteHeader rw = false ->
  wroteHeader (writes (c :: chunks) rw) = true
  /\ status (writes (c :: chunks) rw) = StatusOK
  /\ sent (writes (c :: chunks) rw) = header rw.
Proof.
  intros Hfresh. change (writes (c :: chunks) rw) with (writes chunks (write c rw)).
  assert (Hw : wroteHeader (write c rw) = true /\ status (write c rw) = StatusOK
               /\ sent (write c rw) = header rw).
  { unfold write, sendHeader. rewrite Hfresh. simpl. auto. }
  destruct Hw as (W1 & W2 & W3).
  destruct (writes_started chunks _ W1) as (S1 & S2 & S3).
  repeat split; congruence.
Qed.

Section handlers.
Context `{JSON.Lexer} `{Template.Engine} `{util.Renderers}
        `{config.Global} `{database.Model}.
Context (resources : Template.FS).

(** [RenderError] with a usable error page and a status that starts a
    response, run from any state. *)
Lemma RenderError_exact (tmpl : Template.template) (code : Z) (e : error) (st : state) :
  Template.ParseFS resources "web/error.html" = Ok tmpl ->
  checkWriteHeaderCode code = true -> informational code = false ->
  let page := Template.Execute tmpl
                [ ("Status", Template.Str (Join [itoa code; StatusText code] " "));
                  ("Error", Template.Str (Error e)) ] in
  util.RenderError resources code e st =
    (Return (snd page),
     {| w := writes (fst page) (sendHeader code (setHeader "Content-Type" "text/html" (w st)));
        trace := trace st |}).
Proof.
  intros Hparse Hcheck Hfinal page. subst page. unfold util.RenderError. rewrite Hparse.
  unfold mbind, action_bind, bind, Template.Must, mret, action_ret, ret,
    HeaderSet, onWriter at 1.
  rewrite (WriteHeader_run code _ Hcheck Hfinal).
  rewrite ExecuteTo_run. cbn [w trace fst snd].
  destruct (snd (Template.Execute tmpl _)); reflexivity.
Qed.

(** *** Panics *)

Lemma panicsWith_ret {A : Type} (P : error -> Prop) (a : A) : panicsWith P (mret a).
Proof. intros st e st' E. discriminate E. Qed.

Lemma panicsWith_bind {A B : Type} (P : error -> Prop) (c : action A) (k : A -> action B) :
  panicsWith P c -> (forall a, panicsWith P (k a)) -> panicsWith P (c ≫= k).
Proof.
  intros Hc Hk st e st'. unfold mbind, action_bind, bind.
  destruct (c st) as [[a|e0] st0] eqn:E.
  - apply Hk.
  - intros E'. injection E' as <- <-. exact (Hc _ _ _ E).
Qed.

Lemma panicsWith_onWriter (P : error -> Prop) (f : ResponseWriter -> ResponseWriter) :
  panicsWith P (onWriter f).
Proof. intros st e st' E. discriminate E. Qed.

Lemma panicsWith_emit (P : error -> Prop) (ev : event) : panicsWith P (emit ev).
Proof. intros st e st' E. discriminate E. Qed.

Lemma panicsWith_ExecuteTo (P : error -> Prop) (t : Template.template) (d : Template.data) :
  panicsWith P (Template.ExecuteTo t d).
Proof. intros st e st' E. rewrite ExecuteTo_run in E. discriminate E. Qed.

Lemma panicsWith_getDocument (P : error -> Prop) (s : server.Server) (id : string) :
  panicsWith P (server.getDocument s id).
Proof. intros st e st' E. rewrite getDocument_run in E. discriminate E. Qed.

(** With a status of three digits, [RenderError] panics with the parse error
    of the error page only. *)
Lemma panicsWith_RenderError (code : Z) (e : error) :
  checkWriteHeaderCode code = true ->
  panicsWith (fun perr => Template.ParseFS resources "web/error.html" = Err perr)
    (util.RenderError resources code e).
Proof.
  intros Hcheck st perr st' E.
  destruct (Template.ParseFS resources "web/error.html") as [tmpl|perr0] eqn:Hparse.
  - exfalso. revert E. unfold util.RenderError. rewrite Hparse.
    unfold mbind, action_bind, bind, Template.Must, mret, action_ret, ret,
      HeaderSet, onWriter at 1.
    destruct (WriteHeader_returns code
                {| w := setHeader "Content-Type" "text/html" (w st); trace := trace st |}
                Hcheck) as (st1 & E1 & _).
    cbn [w trace] in E1. rewrite E1, ExecuteTo_run.
    destruct (snd (Template.Execute tmpl _)); discriminate.
  - rewrite (RenderError_panics resources code e perr0 st Hparse) in E.
    injection E as <- _. reflexivity.
Qed.

Ltac panics_step :=
  lazymatch goal with
  | |- panicsWith _ (mret _) => apply panicsWith_ret
  | |- panicsWith _ (util.RenderError _ _ _) => apply panicsWith_RenderError; reflexivity
  | |- panicsWith _ (server.getDocument _ _) => apply panicsWith_getDocument
  | |- panicsWith _ (Template.ExecuteTo _ _) => apply panicsWith_ExecuteTo
  | |- panicsWith _ (emit _) => apply panicsWith_emit
  | |- panicsWith _ (onWriter _) => apply panicsWith_onWriter
  | |- panicsWith _ (HeaderSet _ _) => apply panicsWith_onWriter
  | |- panicsWith _ (Write _) => apply panicsWith_onWriter
  | |- panicsWith _ (_ ≫= _) => apply panicsWith_bind; [|intros]
  | |- panicsWith _ (match ?x with _ => _ end) => destruct x
  | |- panicsWith _ (let _ := _ in _) => cbv zeta
  end.

Lemma returns_of_panicsWith {A : Type} (P : error -> Prop) (c : action A) :
  panicsWith P c -> (forall e, ~ P e) -> returns c.
Proof.
  intros Hc Hn st. destruct (c st) as [[a|e] st'] eqn:E; [eauto|].
  destruct (Hn e (Hc _ _ _ E)).
Qed.

(** X11. The HTML handler can panic in one way only: through the error page,
    [web/error.html], failing to parse, and then with that parse error.
    With a usable error page it runs to its end from every state; without
    one, a request with a malformed identifier panics before anything is
    written or looked up. *)
Theorem X11_html_panics_only_for_error_page (s : server.Server) (r : Request) :
  let html := server.StaticDocument resources s r in
  let segment := index (Split (URLParam r "document") "."%char) 0 in
  panicsWith (fun perr => Template.ParseFS resources "web/error.html" = Err perr) html
  /\ (forall tmpl, Template.ParseFS resources "web/error.html" = Ok tmpl -> returns html)
  /\ (forall perr, Template.ParseFS resources "web/error.html" = Err perr ->
        ~ server.WellFormed s segment -> run html = (Panic perr, initial)).
Proof.
  intros html segment.
  assert (Hp : panicsWith (fun perr => Template.ParseFS resources "web/error.html" = Err perr)
                 html).
  { subst html. unfold server.StaticDocument. repeat panics_step. }
  split; [exact Hp|]. split.
  - intros tmpl Hparse. apply (returns_of_panicsWith _ _ Hp).
    intros e E. rewrite Hparse in E. discriminate E.
  - intros perr Hparse Hn. apply guard_true in Hn.
    subst html. unfold run, server.StaticDocument. fold segment. rewrite Hn.
    unfold mbind, action_bind, bind.
    rewrite (RenderError_panics resources _ _ perr _ Hparse). reflexivity.
Qed.

(** *** The JSON and the raw route *)

(** X12. The JSON and the raw handler never panic: whatever the request and
    the store, each runs to its end and has started a response, with status
    200, 400, 404 or 500.  The JSON handler always answers as
    [application/json], and it writes to the debug log exactly when the
    status is not 200. *)
Theorem X12_api_routes_always_answer (s : server.Server) (r : Request) :
  let json := run (server.FetchDocument s r) in
  let raw := run (server.FetchRawDocument s r) in
  let codes := [StatusOK; StatusBadRequest; StatusNotFound; StatusInternalServerError] in
  (fst json = Return tt /\ wroteHeader (w (snd json)) = true
   /\ In (status (w (snd json))) codes)
  /\ (fst raw = Return tt /\ wroteHeader (w (snd raw)) = true
      /\ In (status (w (snd raw))) codes)
  /\ contentType (snd json) = Some "application/json"
  /\ (logs (snd json) = [] <-> status (w (snd json)) = StatusOK).
Proof.
  intros json raw codes. subst json raw codes.
  unfold run, server.FetchDocument, server.FetchRawDocument.
  destruct (negb _ && negb _).
  - erewrite !bind_run by (apply WriteError_run; reflexivity).
    cbn. intuition discriminate.
  - erewrite !bind_run by apply getDocument_run.
    destruct (database.GetDocument (server.Database s) (URLParam r "document"))
      as [document [err|]].
    + destruct (IsNoRows err); erewrite !bind_run by (apply WriteError_run; reflexivity);
        cbn; intuition discriminate.
    + erewrite bind_run by (apply WriteJSON_run; reflexivity).
      destruct (JSON.Marshal document); cbn; intuition discriminate.
Qed.

(** X13. On every request the raw handler answers with the status the JSON
    handler answers with, after the same lookups.  A malformed identifier
    is turned down by both in the same way, the raw handler too answering
    with the JSON error envelope; past validation the raw handler answers
    as [text/plain], errors included. *)
Theorem X13_raw_route_follows_json_route (s : server.Server) (r : Request) :
  let p := URLParam r "document" in
  let json := server.FetchDocument s r in
  let raw := server.FetchRawDocument s r in
  status (w (final raw)) = status (w (final json))
  /\ lookups (final raw) = lookups (final json)
  /\ (~ server.WellFormed s p -> run raw = run json)
  /\ (server.WellFormed s p -> contentType (final raw) = Some "text/plain").
Proof.
  intros p json raw. subst json raw.
  split; [|split; [|split]].
  - unfold final, run, server.FetchDocument, server.FetchRawDocument. fold p.
    destruct (negb _ && negb _); [reflexivity|].
    erewrite !bind_run by apply getDocument_run.
    destruct (database.GetDocument (server.Database s) p) as [document [err|]].
    + destruct (IsNoRows err); reflexivity.
    + unfold mbind, action_bind, bind. rewrite WriteJSON_run by reflexivity.
      destruct (JSON.Marshal document); reflexivity.
  - pose proof (Fetch_lookups s r) as JL. pose proof (Raw_lookups s r) as RL.
    cbv zeta in JL, RL. rewrite JL, RL. reflexivity.
  - intros Hn. apply guard_true in Hn.
    unfold run, server.FetchDocument, server.FetchRawDocument. fold p.
    rewrite Hn. reflexivity.
  - intros Hw. apply guard_spec in Hw.
    unfold final, run, server.FetchRawDocument. fold p. rewrite Hw.
    erewrite !bind_run by apply getDocument_run.
    destruct (database.GetDocument (server.Database s) p) as [document [err|]];
      [destruct (IsNoRows err)|]; reflexivity.
Qed.

(** X14. On the JSON route a fetched document that encodes goes out with
    status 200 in the success envelope, and that is the whole body: the
    members [error] (empty) and [payload] (the encoded document), one
    line.  Nothing is written to the debug log. *)
Theorem X14_json_route_success (s : server.Server) (r : Request)
    (document : database.Document) (j : JSON.value) :
  let p := URLParam r "document" in
  server.WellFormed s p ->
  database.GetDocument (server.Database s) p = (document, None) ->
  JSON.Marshal document = Ok j ->
  let st := final (server.FetchDocument s r) in
  responded st StatusOK
  /\ body (w st) =
       JSON.line (JSON.JObject [ ("error", JSON.JString EmptyString); ("payload", j) ])
  /\ logs st = [].
Proof.
  intros p Hw Hget Henc st. apply guard_spec in Hw.
  subst st. unfold final, run, server.FetchDocument. fold p. rewrite Hw.
  erewrite bind_run by apply getDocument_run. rewrite Hget.
  erewrite bind_run by (apply WriteJSON_run; reflexivity).
  rewrite Henc. split; [split|split]; reflexivity.
Qed.

(** X15. Every error answer of the JSON route is the error envelope, and
    that is the whole body: an empty object as [payload] and as [error] the
    message of the error, which is also the one entry written to the debug
    log.  For a malformed identifier the message gives the identifier's
    length and the configured one; for a storage error it is the storage
    error's own message. *)
Theorem X15_json_route_errors (s : server.Server) (r : Request) :
  let p := URLParam r "document" in
  let st := final (server.FetchDocument s r) in
  let envelope (e : error) :=
    JSON.line (JSON.JObject [ ("error", JSON.JString (Error e));
                              ("payload", JSON.JObject []) ]) in
  let invalid := errorString ("id is of length " ++ itoa (len p) ++ ", should be "
                                ++ itoa (config.IDLength (server.Config s))) in
  (~ server.WellFormed s p -> body (w st) = envelope invalid /\ logs st = [invalid])
  /\ (forall document err,
        server.WellFormed s p ->
        database.GetDocument (server.Database s) p = (document, Some err) ->
        body (w st) = envelope err /\ logs st = [err]).
Proof.
  intros p st envelope invalid. subst st envelope invalid. split.
  - intros Hn. apply guard_true in Hn.
    unfold final, run, server.FetchDocument. fold p. rewrite Hn.
    erewrite bind_run by (apply WriteError_run; reflexivity). split; reflexivity.
  - intros document err Hw Hget. apply guard_spec in Hw.
    unfold final, run, server.FetchDocument. fold p. rewrite Hw.
    erewrite bind_run by apply getDocument_run. rewrite Hget.
    destruct (IsNoRows err); erewrite bind_run by (apply WriteError_run; reflexivity); split; reflexivity.
Qed.

(** X16. On the raw route a storage error is answered in plain text, and
    the text is the whole body: [Document with ID <id> not found: <message>]
    when the error is (or wraps) the not-found signal, and
    [Error fetching document with ID <id>: <message>] otherwise.  Unlike the
    JSON route, the raw route writes nothing to the debug log for it. *)
Theorem X16_raw_route_errors (s : server.Server) (r : Request)
    (document : database.Document) (err : error) :
  let p := URLParam r "document" in
  server.WellFormed s p ->
  database.GetDocument (server.Database s) p = (document, Some err) ->
  let st := final (server.FetchRawDocument s r) in
  contentType st = Some "text/plain"
  /\ body (w st) =
       (if IsNoRows err
        then "Document with ID " ++ p ++ " not found: " ++ Error err
        else "Error fetching document with ID " ++ p ++ ": " ++ Error err)
  /\ logs st = [].
Proof.
  intros p Hw Hget st. apply guard_spec in Hw.
  subst st. unfold final, run, server.FetchRawDocument. fold p. rewrite Hw.
  erewrite bind_run by apply getDocument_run. rewrite Hget.
  destruct (IsNoRows err); split; [|split| |split]; reflexivity.
Qed.

(** *** The HTML route *)

(** The calls the HTML handler makes, in order, whatever its pages do. *)
Lemma Static_trace (s : server.Server) (r : Request) :
  let params := Split (URLParam r "document") "."%char in
  let id := index params 0 in
  let extension := if (length params =? 2)%nat then index params 1 else EmptyString in
  trace (final (server.StaticDocument resources s r)) =
    if negb (len id =? config.IDLength (server.Config s))
       && negb (Contains (config.Documents (server.Config s)) id)
    then []
    else
      GetDocumentCall id ::
      match database.GetDocument (server.Database s) id with
      | (_, Some _) => []
      | (document, None) =>
          if String.eqb (QueryGet r "reader") "true" then
            match Template.ParseFS resources "web/reader.html" with
            | Ok _ => [ParseMarkdownCall (database.Content document)]
            | Err _ => []
            end
          else
            match Template.ParseFS resources "web/document.html" with
            | Ok _ => [HighlightCall (database.Content document) extension]
            | Err _ => []
            end
      end.
Proof.
  intros params id extension.
  unfold final, run, server.StaticDocument. fold params id.
  destruct (negb _ && negb _); [apply RenderError_then_trace|].
  erewrite bind_run by apply getDocument_run.
  destruct (database.GetDocument (server.Database s) id) as [document [err|]].
  - destruct (IsNoRows err); rewrite RenderError_then_trace; reflexivity.
  - destruct (String.eqb (QueryGet r "reader") "true").
    + destruct (Template.ParseFS resources "web/reader.html") as [t|perr].
      * erewrite bind_run by reflexivity.
        rewrite bind_trace; [reflexivity | apply ExecuteTo_trace |].
        intros [e|] st0; [apply RenderError_then_trace | reflexivity].
      * rewrite RenderError_then_trace. reflexivity.
    + destruct (Template.ParseFS resources "web/document.html") as [t|perr].
      * fold extension. erewrite bind_run by reflexivity.
        destruct (util.Highlight (database.Content document) extension)
          as [[highlighted css] [e|]].
        -- rewrite RenderError_then_trace. reflexivity.
        -- rewrite bind_trace; [reflexivity | apply ExecuteTo_trace |].
           intros [e|] st0; [apply RenderError_then_trace | reflexivity].
      * rewrite RenderError_then_trace. reflexivity.
Qed.

(** X17. The HTML handler hands a renderer nothing but the stored content
    of the document it fetched: the Markdown renderer in reader mode only
    (the query parameter [reader] being exactly [true]), the syntax
    highlighter in code mode only, and in one run never both and never one
    of them twice. *)
Theorem X17_renderers_get_fetched_content (s : server.Server) (r : Request) :
  let segment := index (Split (URLParam r "document") "."%char) 0 in
  let st := final (server.StaticDocument resources s r) in
  (forall content, In (ParseMarkdownCall content) (trace st) ->
     QueryGet r "reader" = "true"
     /\ exists document,
          database.GetDocument (server.Database s) segment = (document, None)
          /\ content = database.Content document)
  /\ (forall content extension, In (HighlightCall content extension) (trace st) ->
        QueryGet r "reader" <> "true"
        /\ exists document,
             database.GetDocument (server.Database s) segment = (document, None)
             /\ content = database.Content document)
  /\ (length (markdowns st) + length (hints st) <= 1)%nat.
Proof.
  intros segment st. subst st. unfold markdowns, hints.
  pose proof (Static_trace s r) as T. cbv zeta in T. fold segment in T. rewrite T. clear T.
  destruct (negb _ && negb _); [simpl; intuition lia|].
  destruct (database.GetDocument (server.Database s) segment) as [document [err|]].
  { simpl. split; [|split; [|lia]]; intros; intuition discriminate. }
  destruct (String.eqb_spec (QueryGet r "reader") "true") as [E|E].
  - destruct (Template.ParseFS resources "web/reader.html"); simpl;
      (split; [|split; [|lia]]).
    + intros content [F|[F|[]]]; [discriminate F|]. injection F as <-. eauto.
    + intros content extension [F|[F|[]]]; discriminate F.
    + intros content [F|[]]; discriminate F.
    + intros content extension [F|[]]; discriminate F.
  - destruct (Template.ParseFS resources "web/document.html"); simpl;
      (split; [|split; [|lia]]).
    + intros content [F|[F|[]]]; discriminate F.
    + intros content extension [F|[F|[]]]; [discriminate F|]. injection F as <- _. eauto.
    + intros content [F|[]]; discriminate F.
    + intros content extension [F|[]]; discriminate F.
Qed.

(** X18. When a page template fails in the middle of its output, what it
    wrote has gone out with status 200: the 500 of the error page comes too
    late to change the status, and the error page is appended to the
    partial page.  Only when the template fails before its first write does
    the answer become a 500 rendered as [text/html].  (Code mode; the
    error page, [web/error.html], has to parse.) *)
Theorem X18_template_error_after_output
    (s : server.Server) (r : Request) (document : database.Document)
    (t tmpl : Template.template) (highlighted css : string)
    (chunks : list string) (e : error) :
  let params := Split (URLParam r "document") "."%char in
  let segment := index params 0 in
  let extension := if (length params =? 2)%nat then index params 1 else EmptyString in
  let data :=
    [ ("Stylesheet", Template.CSS css);
      ("Content", Template.Str (database.Content document));
      ("Highlighted", Template.HTML highlighted);
      ("Extension", Template.Str extension);
      ("Analytics", Template.HTML (config.Analytics config.Config)) ] in
  let page :=
    fst (Template.Execute tmpl
           [ ("Status", Template.Str "500 Internal Server Error");
             ("Error", Template.Str (Error e)) ]) in
  server.WellFormed s segment ->
  database.GetDocument (server.Database s) segment = (document, None) ->
  QueryGet r "reader" <> "true" ->
  Template.ParseFS resources "web/document.html" = Ok t ->
  Template.ParseFS resources "web/error.html" = Ok tmpl ->
  util.Highlight (database.Content document) extension = (highlighted, css, None) ->
  Template.Execute t data = (chunks, Some e) ->
  let st := final (server.StaticDocument resources s r) in
  responded st (match chunks with [] => StatusInternalServerError | _ => StatusOK end)
  /\ (chunks = [] -> contentType st = Some "text/html")
  /\ body (w st) =
       (String.concat EmptyString chunks ++ String.concat EmptyString page)%string.
Proof.
  intros params segment extension data page Hw Hget Hreader Hdoc Herr Hhl Hexec st.
  apply guard_spec in Hw.
  subst st. unfold final, run, server.StaticDocument. fold params segment. rewrite Hw.
  erewrite bind_run by apply getDocument_run. rewrite Hget.
  destruct (String.eqb_spec (QueryGet r "reader") "true") as [E|_]; [contradiction|].
  rewrite Hdoc. fold extension. erewrite bind_run by reflexivity.
  rewrite Hhl. fold data.
  erewrite bind_run by apply ExecuteTo_run. rewrite Hexec. cbn [fst snd].
  erewrite bind_run by (apply RenderError_exact; [exact Herr | reflexivity | reflexivity]).
  change (Join [itoa StatusInternalServerError; StatusText StatusInternalServerError] " ")
    with "500 Internal Server Error". fold page.
  cbn [mret action_ret ret snd w trace].
  destruct chunks as [|c chunks].
  - cbn [writes fold_left]. change (writes [] ?x) with x.
    set (rw := sendHeader _ _).
    assert (Hrw : wroteHeader rw = true /\ status rw = StatusInternalServerError
                  /\ sent rw = <["Content-Type" := "text/html"]> ∅
                  /\ body rw = EmptyString) by (repeat split; reflexivity).
    destruct Hrw as (R1 & R2 & R3 & R4).
    destruct (writes_started page rw R1) as (W1 & W2 & W3).
    unfold responded, contentType. cbn [w].
    rewrite W1, W2, W3, R2, R3, writes_body, R4. repeat split.
  - change (w initial) with NewRecorder.
    destruct (writes_fresh c chunks NewRecorder eq_refl) as (F1 & F2 & F3).
    pose proof (writes_body (c :: chunks) NewRecorder) as F4.
    set (rw := writes (c :: chunks) NewRecorder) in *.
    assert (Hrw : sendHeader StatusInternalServerError
                    (setHeader "Content-Type" "text/html" rw)
                  = setHeader "Content-Type" "text/html" rw).
    { unfold sendHeader. cbn [wroteHeader setHeader]. rewrite F1. reflexivity. }
    rewrite Hrw.
    assert (S1 : wroteHeader (setHeader "Content-Type" "text/html" rw) = true) by exact F1.
    destruct (writes_started page _ S1) as (W1 & W2 & W3).
    unfold responded. cbn [w]. rewrite W1, W2, writes_body. cbn [status body setHeader].
    rewrite F2, F4. repeat split. discriminate.
Qed.

(** What [RenderError] leaves on a response not yet started, with a
    status that starts a response. *)
Lemma RenderError_fresh (tmpl : Template.template) (code : Z) (e : error)
    (events : list event) :
  Template.ParseFS resources "web/error.html" = Ok tmpl ->
  checkWriteHeaderCode code = true -> informational code = false ->
  let st := snd ((util.RenderError resources code e ;; mret tt)
                   {| w := NewRecorder; trace := events |}) in
  responded st code
  /\ contentType st = Some "text/html"
  /\ body (w st) =
       String.concat EmptyString
         (fst (Template.Execute tmpl
                 [ ("Status", Template.Str (Join [itoa code; StatusText code] " "));
                   ("Error", Template.Str (Error e)) ]))
  /\ trace st = events.
Proof.
  intros Hparse Hcheck Hfinal st. subst st.
  erewrite bind_run by (apply RenderError_exact; [exact Hparse | exact Hcheck | exact Hfinal]).
  cbn [mret action_ret ret snd w trace].
  set (page := fst (Template.Execute tmpl _)).
  set (rw := sendHeader _ _).
  assert (Hrw : wroteHeader rw = true /\ status rw = code
                /\ sent rw = <["Content-Type" := "text/html"]> ∅
                /\ body rw = EmptyString) by (repeat split; reflexivity).
  destruct Hrw as (R1 & R2 & R3 & R4).
  destruct (writes_started page rw R1) as (W1 & W2 & W3).
  unfold responded, contentType. cbn [w].
  rewrite W1, W2, W3, R2, R3, writes_body, R4. repeat split.
Qed.

(** X19. The error pages of the HTML route.  With a usable error page,
    [web/error.html], the body of an error answer is that page and nothing
    else, executed with two strings: the status line ([400 Bad Request],
    [404 Not Found] or [500 Internal Server Error]) and the message of the
    error, which for a malformed identifier gives the identifier's length
    and the configured one.  The HTML route writes nothing to the debug
    log. *)
Theorem X19_html_error_pages (s : server.Server) (r : Request)
    (tmpl : Template.template) :
  let segment := index (Split (URLParam r "document") "."%char) 0 in
  let st := final (server.StaticDocument resources s r) in
  let page (line : string) (e : error) :=
    String.concat EmptyString
      (fst (Template.Execute tmpl
              [ ("Status", Template.Str line); ("Error", Template.Str (Error e)) ])) in
  let invalid := errorString ("id is of length " ++ itoa (len segment) ++ ", should be "
                                ++ itoa (config.IDLength (server.Config s))) in
  Template.ParseFS resources "web/error.html" = Ok tmpl ->
  (~ server.WellFormed s segment -> body (w st) = page "400 Bad Request" invalid)
  /\ (forall document err,
        server.WellFormed s segment ->
        database.GetDocument (server.Database s) segment = (document, Some err) ->
        body (w st) =
          page (if IsNoRows err then "404 Not Found" else "500 Internal Server Error") err)
  /\ logs st = [].
Proof.
  intros segment st page invalid Hparse. split; [|split].
  - intros Hn. apply guard_true in Hn.
    subst st. unfold final, run, server.StaticDocument. fold segment. rewrite Hn.
    apply (RenderError_fresh tmpl StatusBadRequest invalid [] Hparse eq_refl eq_refl).
  - intros document err Hw Hget. apply guard_spec in Hw.
    subst st. unfold final, run, server.StaticDocument. fold segment. rewrite Hw.
    erewrite bind_run by apply getDocument_run. rewrite Hget.
    destruct (IsNoRows err).
    + apply (RenderError_fresh tmpl StatusNotFound err _ Hparse eq_refl eq_refl).
    + apply (RenderError_fresh tmpl StatusInternalServerError err _ Hparse eq_refl eq_refl).
  - subst st. unfold logs.
    pose proof (Static_trace s r) as T. cbv zeta in T. rewrite T. clear T.
    destruct (negb _ && negb _); [reflexivity|].
    destruct (database.GetDocument _ _) as [document [err|]]; [reflexivity|].
    destruct (String.eqb _ _);
      [destruct (Template.ParseFS resources "web/reader.html")
      |destruct (Template.ParseFS resources "web/document.html")]; reflexivity.
Qed.

(** X20. A fetched document whose page cannot be produced is answered with
    status 500 through the error page, carrying the message of what failed:
    the page template of the mode ([web/reader.html] in reader mode,
    [web/document.html] in code mode) not parsing, in which case no
    renderer is called, or the syntax highlighter failing.  Nothing of the
    document is written. *)
Theorem X20_html_rendering_failures (s : server.Server) (r : Request)
    (tmpl : Template.template) (document : database.Document) :
  let params := Split (URLParam r "document") "."%char in
  let segment := index params 0 in
  let extension := if (length params =? 2)%nat then index params 1 else EmptyString in
  let name := if String.eqb (QueryGet r "reader") "true"
              then "web/reader.html" else "web/document.html" in
  let st := final (server.StaticDocument resources s r) in
  let page (e : error) :=
    String.concat EmptyString
      (fst (Template.Execute tmpl
              [ ("Status", Template.Str "500 Internal Server Error");
                ("Error", Template.Str (Error e)) ])) in
  Template.ParseFS resources "web/error.html" = Ok tmpl ->
  server.WellFormed s segment ->
  database.GetDocument (server.Database s) segment = (document, None) ->
  (forall perr, Template.ParseFS resources name = Err perr ->
     responded st StatusInternalServerError /\ body (w st) = page perr
     /\ markdowns st = [] /\ hints st = [])
  /\ (forall t highlighted css e,
        QueryGet r "reader" <> "true" ->
        Template.ParseFS resources "web/document.html" = Ok t ->
        util.Highlight (database.Content document) extension = (highlighted, css, Some e) ->
        responded st StatusInternalServerError /\ body (w st) = page e).
Proof.
  intros params segment extension name st page Hparse Hw Hget.
  apply guard_spec in Hw. split.
  - intros perr Hname.
    subst st. unfold final, run, server.StaticDocument. fold params segment. rewrite Hw.
    erewrite bind_run by apply getDocument_run. rewrite Hget.
    change (w initial) with NewRecorder.
    subst name. destruct (String.eqb (QueryGet r "reader") "true"); rewrite Hname;
      destruct (RenderError_fresh tmpl StatusInternalServerError perr
                  (trace initial ++ [GetDocumentCall segment]) Hparse eq_refl eq_refl)
        as (R1 & _ & R3 & R4);
      (split; [exact R1|]); (split; [exact R3|]);
      unfold markdowns, hints; rewrite R4; split; reflexivity.
  - intros t highlighted css e Hreader Hdoc Hhl.
    subst st. unfold final, run, server.StaticDocument. fold params segment. rewrite Hw.
    erewrite bind_run by apply getDocument_run. rewrite Hget.
    change (w initial) with NewRecorder.
    destruct (String.eqb_spec (QueryGet r "reader") "true") as [E|_]; [contradiction|].
    rewrite Hdoc. fold extension. erewrite bind_run by reflexivity. rewrite Hhl.
    destruct (RenderError_fresh tmpl StatusInternalServerError e
                ((trace initial ++ [GetDocumentCall segment])
                   ++ [HighlightCall (database.Content document) extension]) Hparse
                eq_refl eq_refl)
      as (R1 & _ & R3 & _).
    split; [exact R1 | exact R3].
Qed.

(** X21. The pages of the HTML route.  When the page template of the mode
    parses and executes without error, the handler returns and the body is
    what the template wrote and nothing else, with status 200 once anything
    was written; the error page is not needed for it.  In reader mode the
    template gets the Markdown renderer's output for the stored content as
    HTML; in code mode it gets the highlighter's output as HTML, its
    stylesheet as CSS, and the stored content and the extension hint as
    plain strings.  Both get the analytics snippet of the configuration as
    HTML. *)
Theorem X21_html_pages (s : server.Server) (r : Request)
    (document : database.Document) (t : Template.template) (chunks : list string) :
  let params := Split (URLParam r "document") "."%char in
  let segment := index params 0 in
  let extension := if (length params =? 2)%nat then index params 1 else EmptyString in
  let html := run (server.StaticDocument resources s r) in
  let served :=
    fst html = Return tt
    /\ body (w (snd html)) = String.concat EmptyString chunks
    /\ (chunks <> [] -> responded (snd html) StatusOK) in
  server.WellFormed s segment ->
  database.GetDocument (server.Database s) segment = (document, None) ->
  (QueryGet r "reader" = "true" ->
   Template.ParseFS resources "web/reader.html" = Ok t ->
   Template.Execute t
     [ ("Content", Template.HTML (util.ParseMarkdown (database.Content document)));
       ("Analytics", Template.HTML (config.Analytics config.Config)) ] = (chunks, None) ->
   served)
  /\ (forall highlighted css,
        QueryGet r "reader" <> "true" ->
        Template.ParseFS resources "web/document.html" = Ok t ->
        util.Highlight (database.Content document) extension = (highlighted, css, None) ->
        Template.Execute t
          [ ("Stylesheet", Template.CSS css);
            ("Content", Template.Str (database.Content document));
            ("Highlighted", Template.HTML highlighted);
            ("Extension", Template.Str extension);
            ("Analytics", Template.HTML (config.Analytics config.Config)) ] = (chunks, None) ->
        served).
Proof.
  intros params segment extension html served Hw Hget.
  apply guard_spec in Hw.
  assert (Hserved : forall events,
            let st := {| w := writes chunks NewRecorder; trace := events |} in
            body (w st) = String.concat EmptyString chunks
            /\ (chunks <> [] -> responded st StatusOK)).
  { intros events st. subst st. cbn [w]. split.
    - rewrite writes_body. reflexivity.
    - destruct chunks as [|c rest]; [congruence|]. intros _.
      destruct (writes_fresh c rest NewRecorder eq_refl) as (F1 & F2 & _).
      split; assumption. }
  subst served html. unfold run, server.StaticDocument. fold params segment. rewrite Hw.
  erewrite bind_run by apply getDocument_run. rewrite Hget.
  split.
  - intros Hreader Hpage Hexec. rewrite Hreader. cbn [String.eqb Ascii.eqb Bool.eqb].
    change ("true" =? "true")%string with true. cbv iota.
    rewrite Hpage. erewrite bind_run by reflexivity.
    erewrite bind_run by apply ExecuteTo_run. rewrite Hexec. cbn [fst snd].
    split; [reflexivity|]. apply Hserved.
  - intros highlighted css Hreader Hpage Hhl Hexec.
    destruct (String.eqb_spec (QueryGet r "reader") "true") as [E|_]; [contradiction|].
    rewrite Hpage. fold extension. erewrite bind_run by reflexivity. rewrite Hhl.
    erewrite bind_run by apply ExecuteTo_run. rewrite Hexec. cbn [fst snd].
    split; [reflexivity|]. apply Hserved.
Qed.

End handlers.
End ServerMore.

(** ** The statements run on concrete requests *)

Module Runs.
Import GoStrings HTTP SplitFacts UtilFacts ServerFacts Fixture.

(** C1 at [GET /abc]: too short and not reserved, so 400 and no lookup. *)
Lemma C1_witness :
  Template.ParseFS resources "web/error.html" = Ok "web/error.html"
  /\ server.rejects (server.StaticDocument resources s0 (get "abc" [])) StatusBadRequest.
Proof.
  split; [reflexivity|].
  destruct (C1_identifier_validation resources s0 (get "abc" []) "web/error.html")
    as [Hhtml _].
  destruct (Hhtml eq_refl) as [_ Hrej].
  apply Hrej. intros [Hlen|Hin].
  - vm_compute in Hlen. discriminate Hlen.
  - vm_compute in Hin. intuition discriminate.
Defined.

(** C2 at [GET /api/abcdeg]: well-formed, not stored, so 404. *)
Lemma C2_witness :
  server.WellFormed s0 "abcdeg"
  /\ responded (final (server.FetchDocument s0 (get "abcdeg" []))) StatusNotFound.
Proof.
  assert (Hw : server.WellFormed s0 "abcdeg") by (left; reflexivity).
  split; [exact Hw|].
  destruct (C2_storage_error_status resources s0 (get "abcdeg" []) "web/error.html"
              (fst (database.GetDocument (server.Database s0) "abcdeg")) ErrNoRows)
    as [_ Hjson].
  apply Hjson; [exact Hw | reflexivity].
Defined.

(** C3 at [GET /raw/abcdef]. *)
Lemma C3_witness :
  server.WellFormed s0 "abcdef"
  /\ body (w (final (server.FetchRawDocument s0 (get "abcdef" [])))) = "package main".
Proof.
  assert (Hw : server.WellFormed s0 "abcdef") by (left; reflexivity).
  split; [exact Hw|].
  apply (C3_raw_body_is_content s0 (get "abcdef" []) hello Hw eq_refl).
Defined.

(** C4 at a string payload and status 200. *)
Lemma C4_witness :
  JSON.Marshal "hi" = Ok (JSON.JString "hi")
  /\ body (w (final (util.WriteJSON StatusOK "hi"))) =
       "{" ++ quoted "error" ++ ":" ++ quoted "" ++ "," ++ quoted "payload" ++ ":"
           ++ quoted "hi" ++ "}" ++ String "010"%char "".
Proof.
  split; [reflexivity|].
  destruct (C4_json_envelopes StatusOK "hi" (JSON.JString "hi") ErrNoRows initial
              eq_refl eq_refl eq_refl) as [Hok _].
  destruct (Hok eq_refl) as (_ & _ & _ & Hbody).
  exact Hbody.
Defined.

(** C4 as stated fails at a payload without encoding: the status goes out
    and no envelope follows. *)
Lemma C4_counterexample :
  let st := final (util.WriteJSON StatusOK MakeChan) in
  responded st StatusOK
  /\ body (w st) = EmptyString
  /\ forall payload : JSON.value,
       body (w st) <>
       JSON.line (JSON.JObject [ ("error", JSON.JString EmptyString); ("payload", payload) ]).
Proof.
  split; [split; reflexivity|]. split; [reflexivity|].
  intros payload. change (body _) with EmptyString.
  intros E. symmetry in E. exact (line_not_empty _ E).
Qed.

(** C5 at [{"content":"hello"}] sent as [application/json; charset=utf-8]. *)
Lemma C5_witness :
  util.HandleBody 1
    (post "application/json; charset=utf-8"
       ("{" ++ quoted "content" ++ ":" ++ quoted "hello" ++ "}"))
  = ({| util.Content := "hello" |}, None).
Proof.
  set (r := post "application/json; charset=utf-8"
              ("{" ++ quoted "content" ++ ":" ++ quoted "hello" ++ "}")).
  assert (Htoken : index (Split (HeaderGet r "Content-Type") ";"%char) 0 = "application/json")
    by (vm_compute; reflexivity).
  assert (Hscan : JSON.scan (Body r) =
                  Ok (JSON.JObject (map (fun kv => (fst kv, JSON.JString (snd kv)))
                                        [("content", "hello")])))
    by (vm_compute; reflexivity).
  destruct (C5_body_decoder 1 r) as [Hjson _].
  destruct (Hjson [("content", "hello")] Htoken Hscan) as [E _].
  exact E.
Defined.

(** C6 at a stored document stamped in the year 10000: status 200, no
    body, no error envelope. *)
Lemma C6_witness :
  let st := final (server.FetchDocument (srv (store [late])) (get "zzzzzz" [])) in
  marshalStored late = Err (errorString "Time.MarshalJSON: year outside of range [0,9999]")
  /\ responded st StatusOK
  /\ body (w st) = EmptyString.
Proof.
  split; [reflexivity|].
  destruct (C6_encoding_failure_is_swallowed (srv (store [late])) (get "zzzzzz" []) late
              (errorString "Time.MarshalJSON: year outside of range [0,9999]")
              (or_introl eq_refl) eq_refl eq_refl) as (Hr & Hb & _).
  split; [exact Hr | exact Hb].
Defined.

(** C7 at [GET /abcdef.go]. *)
Lemma C7_witness :
  hints (final (server.StaticDocument resources s0 (get "abcdef.go" []))) = ["go"].
Proof.
  destruct (C7_extension_hint resources s0 (get "abcdef.go" []) hello "web/document.html"
              (or_introl eq_refl) eq_refl) as (hint & Hh & _ & Hext & _).
  - discriminate.
  - reflexivity.
  - rewrite Hh. f_equal. apply (Hext "abcdef" "go"); reflexivity.
Defined.

(** C7 as stated fails at [GET /abcdef.tar.gz]: a parameter of the form
    [id.ext], ending in [.gz], for which the hint is empty. *)
Lemma C7_counterexample :
  let r := get "abcdef.tar.gz" [] in
  URLParam r "document" = "abcdef" ++ "." ++ "tar.gz"
  /\ URLParam r "document" = "abcdef.tar" ++ "." ++ "gz"
  /\ hints (final (server.StaticDocument resources s0 r)) = [EmptyString].
Proof. repeat split. Qed.

(** C8 at a password of 16 bytes. *)
Lemma C8_witness :
  util.ValidateBody 400000
    (util.ofSigninRequest {| util.Username := "luke"; util.Password := "0123456789abcdef" |})
  = None.
Proof.
  destruct (C8_signin_validation 400000
              {| util.Username := "luke"; util.Password := "0123456789abcdef" |})
    as (_ & _ & Hpass).
  apply Hpass; [discriminate | reflexivity].
Defined.

(** C9 at [abcdef.tar.gz]: the HTML route looks up [abcdef]. *)
Lemma C9_witness :
  free "."%char "abcdef"
  /\ server.looksUp (server.StaticDocument resources s0 (get "abcdef.tar.gz" [])) "abcdef".
Proof.
  split; [reflexivity|].
  destruct (C9_html_route_strips_at_first_dot resources s0 (get "abcdef.tar.gz" [])
              "abcdef" "tar.gz" eq_refl eq_refl) as (_ & [Hiff _] & _).
  apply Hiff. left. reflexivity.
Defined.

(** C10 at [{"content": 5}]. *)
Lemma C10_witness :
  exists err,
    util.HandleBody 1 (post "application/json" ("{" ++ quoted "content" ++ ": 5}"))
    = ({| util.Content := EmptyString |}, Some err).
Proof.
  assert (Hscan : JSON.scan (Body (post "application/json" ("{" ++ quoted "content" ++ ": 5}")))
                  = Ok (JSON.JObject [("content", JSON.JNumber "5")]))
    by (vm_compute; reflexivity).
  destruct (C10_non_string_members 1
              (post "application/json" ("{" ++ quoted "content" ++ ": 5}"))
              [("content", JSON.JNumber "5")] eq_refl Hscan) as [Herr _].
  apply Herr. constructor. intros [[s Hs]|Hn]; discriminate.
Defined.

(** C10 as stated fails at [{"content": null}]: the object holds a value
    that is no string, and the decoder reports no error. *)
Lemma C10_counterexample :
  let r := post "application/json" ("{" ++ quoted "content" ++ ": null}") in
  JSON.scan (Body r) = Ok (JSON.JObject [("content", JSON.JNull)])
  /\ util.HandleBody 1 r = ({| util.Content := EmptyString |}, None).
Proof. split; reflexivity. Qed.

End Runs.

(** ** Further statements run on concrete requests *)

Module MoreRuns.
Import GoStrings HTTP SplitFacts UtilFacts ServerFacts UtilMore ServerMore Fixture.

(** A struct with a failing field is answered with the map of failures. *)
Lemma ValidateStruct_failing (fields : list Validation.FieldRules) (field : string)
    (e : Validation.Error) :
  Validation.collect fields !! field = Some e ->
  Validation.ValidateStruct fields = Some (Validation.collect fields).
Proof.
  intros Hfield. unfold Validation.ValidateStruct.
  destruct (decide _) as [E|_]; [|reflexivity].
  rewrite E in Hfield. discriminate Hfield.
Qed.

(** X2 at a one-byte content under a negative size limit. *)
Lemma X2_witness :
  util.ValidateBody (-1) (util.ofCreateRequest {| util.Content := "a" |})
  = Some {[ "Content" := Validation.ErrLengthEmptyRequired ]}.
Proof.
  assert (Hs : util.ValidateBody (-1) (util.ofCreateRequest {| util.Content := "a" |})
               = Some (Validation.collect
                         [ Validation.Field "Content" "a"
                             [Validation.Required; Validation.Length 2 (-1)] ]))
    by (apply (ValidateStruct_failing _ "Content" Validation.ErrLengthEmptyRequired);
        reflexivity).
  rewrite Hs.
  exact (f_equal Some (X2_create_error_code (-1) {| util.Content := "a" |} _ Hs)).
Defined.

(** X4 at an empty username and a password of five bytes. *)
Lemma X4_witness :
  exists errs,
    util.ValidateBody 400000
      (util.ofSigninRequest {| util.Username := ""; util.Password := "short" |}) = Some errs
    /\ errs !! "Username" = Some Validation.ErrRequired
    /\ errs !! "Password" = Some Validation.ErrLengthOutOfRange.
Proof.
  set (v := {| util.Username := ""; util.Password := "short" |}).
  assert (Hs : util.ValidateBody 400000 (util.ofSigninRequest v)
               = Some (Validation.collect
                         [ Validation.Field "Username" "" [Validation.Required];
                           Validation.Field "Password" "short"
                             [Validation.Required; Validation.Length 16 128] ]))
    by (apply (ValidateStruct_failing _ "Username" Validation.ErrRequired); reflexivity).
  eexists. split; [exact Hs|].
  destruct (X4_every_failing_field 400000 v _ Hs) as (Hu & Hp & _).
  split; [exact Hu | exact Hp].
Defined.

(** X5 at a body that breaks off. *)
Lemma X5_witness :
  util.HandleBody 1 (post "application/json" "{") =
    ({| util.Content := EmptyString |}, Some Scanner.ErrUnexpectedEOF).
Proof.
  set (r := post "application/json" "{").
  assert (Herr : snd (util.HandleBody 1 r) = Some Scanner.ErrUnexpectedEOF)
    by (vm_compute; reflexivity).
  assert (Hne : snd (util.HandleBody 1 r) <> None) by (rewrite Herr; discriminate).
  pose proof (X5_error_means_empty_request 1 r Hne) as Hreq.
  rewrite (surjective_pairing (util.HandleBody 1 r)), Hreq, Herr. reflexivity.
Defined.

(** X6 at the body [[1]]: an array, so an error and the empty request. *)
Lemma X6_witness :
  exists err,
    util.HandleBody 1 (post "application/json; charset=utf-8" "[1]")
    = ({| util.Content := EmptyString |}, Some err).
Proof.
  set (r := post "application/json; charset=utf-8" "[1]").
  assert (Htoken : index (Split (HeaderGet r "Content-Type") ";"%char) 0 = "application/json")
    by (vm_compute; reflexivity).
  assert (Hscan : JSON.scan (Body r) = Ok (JSON.JArray [JSON.JNumber "1"]))
    by (vm_compute; reflexivity).
  destruct (X6_bodies_that_are_no_object 1 r Htoken) as (_ & _ & Hother).
  apply (Hother _ Hscan); [discriminate | intros members; discriminate].
Defined.

(** X7 at [{"content": 5, "x": true}]: the number is reported. *)
Lemma X7_witness :
  util.HandleBody 1
    (post "application/json"
       ("{" ++ quoted "content" ++ ": 5, " ++ quoted "x" ++ ": true}"))
  = ({| util.Content := EmptyString |},
     Some (errorString "json: cannot unmarshal number into Go value of type string")).
Proof.
  set (r := post "application/json"
              ("{" ++ quoted "content" ++ ": 5, " ++ quoted "x" ++ ": true}")).
  assert (Hscan : JSON.scan (Body r)
                  = Ok (JSON.JObject ([] ++ ("content", JSON.JNumber "5")
                                         :: [("x", JSON.JBool true)])))
    by (vm_compute; reflexivity).
  apply (X7_first_type_error_wins 1 r [] [("x", JSON.JBool true)] "content"
           (JSON.JNumber "5") eq_refl Hscan).
  - constructor.
  - intros [[s Hs]|Hn]; discriminate.
Defined.

(** X8 at [application/json; charset=utf-8]. *)
Lemma X8_witness :
  let body := "{" ++ quoted "content" ++ ":" ++ quoted "hello" ++ "}" in
  util.HandleBody 1 (post "application/json; charset=utf-8" body)
  = util.HandleBody 1 (post "application/json" body).
Proof.
  intros body.
  apply (X8_parameters_are_ignored 1 (post "application/json" body)
           (post "application/json; charset=utf-8" body) " charset=utf-8");
    reflexivity.
Defined.

(** X9 at a body sent as [text/plain]. *)
Lemma X9_witness :
  let r := post "text/plain" "hello" in
  snd (util.HandleBody 1 r) = None
  /\ util.ValidateBody 1 (util.ofCreateRequest (fst (util.HandleBody 1 r)))
     = Some (<["Content" := Validation.ErrRequired]> ∅).
Proof.
  intros r. apply (X9_unsupported_type_fails_validation 1 r); vm_compute; discriminate.
Defined.


(** X23 at status 0 on a fresh response. *)
Lemma X23_witness :
  fst (run (util.WriteError 0 ErrNoRows)) = Panic (errorString "invalid WriteHeader code 0")
  /\ wroteHeader (w (final (util.WriteError 0 ErrNoRows))) = false
  /\ body (w (final (util.WriteError 0 ErrNoRows))) = EmptyString.
Proof.
  destruct (X23_invalid_status_panics 0 "hi" ErrNoRows initial eq_refl eq_refl) as [_ Hko].
  unfold final, run. rewrite Hko. repeat split.
Defined.

(** X11 at [GET /abc] with no page in the embedded files. *)
Lemma X11_witness :
  run (@server.StaticDocument Faults.noPages _ _ _ tt s0 (get "abc" []))
  = (Panic (Faults.missing "web/error.html"), initial).
Proof.
  destruct (X11_html_panics_only_for_error_page (H0 := Faults.noPages) tt s0 (get "abc" []))
    as (_ & _ & Hpanic).
  apply Hpanic; [reflexivity|].
  intros [Hlen|Hin].
  - vm_compute in Hlen. discriminate Hlen.
  - vm_compute in Hin. intuition discriminate.
Defined.

(** X13 at [GET /raw/abc]: turned down as on the JSON route. *)
Lemma X13_witness :
  run (server.FetchRawDocument s0 (get "abc" [])) = run (server.FetchDocument s0 (get "abc" [])).
Proof.
  destruct (X13_raw_route_follows_json_route s0 (get "abc" [])) as (_ & _ & Hsame & _).
  apply Hsame. intros [Hlen|Hin].
  - vm_compute in Hlen. discriminate Hlen.
  - vm_compute in Hin. intuition discriminate.
Defined.

(** X14 at [GET /api/abcdef]. *)
Lemma X14_witness :
  exists j,
    marshalStored hello = Ok j
    /\ body (w (final (server.FetchDocument s0 (get "abcdef" [])))) =
         JSON.line (JSON.JObject [ ("error", JSON.JString EmptyString); ("payload", j) ]).
Proof.
  destruct (marshalStored hello) as [j|e] eqn:Henc; [|vm_compute in Henc; discriminate Henc].
  exists j. split; [reflexivity|].
  destruct (X14_json_route_success s0 (get "abcdef" []) hello j (or_introl eq_refl) eq_refl Henc)
    as (_ & Hbody & _).
  exact Hbody.
Defined.

(** X15 at [GET /api/abc]. *)
Lemma X15_witness :
  let st := final (server.FetchDocument s0 (get "abc" [])) in
  body (w st) =
    JSON.line (JSON.JObject [ ("error", JSON.JString "id is of length 3, should be 6");
                              ("payload", JSON.JObject []) ])
  /\ logs st = [errorString "id is of length 3, should be 6"].
Proof.
  destruct (X15_json_route_errors s0 (get "abc" [])) as [Hinvalid _].
  apply Hinvalid. intros [Hlen|Hin].
  - vm_compute in Hlen. discriminate Hlen.
  - vm_compute in Hin. intuition discriminate.
Defined.

(** X16 at [GET /raw/abcdeg]: well-formed and not stored. *)
Lemma X16_witness :
  body (w (final (server.FetchRawDocument s0 (get "abcdeg" [])))) =
    "Document with ID abcdeg not found: sql: no rows in result set".
Proof.
  destruct (X16_raw_route_errors s0 (get "abcdeg" [])
              (fst (database.GetDocument (server.Database s0) "abcdeg")) ErrNoRows
              (or_introl eq_refl) eq_refl) as (_ & Hbody & _).
  exact Hbody.
Defined.

(** X17 at [GET /abcdef?reader=true]. *)
Lemma X17_witness :
  let r := get "abcdef" [("reader", "true")] in
  In (ParseMarkdownCall "package main") (trace (final (server.StaticDocument resources s0 r)))
  /\ QueryGet r "reader" = "true".
Proof.
  intros r.
  assert (Hin : In (ParseMarkdownCall "package main")
                  (trace (final (server.StaticDocument resources s0 r))))
    by (right; left; reflexivity).
  split; [exact Hin|].
  destruct (X17_renderers_get_fetched_content resources s0 r) as (Hmd & _).
  destruct (Hmd _ Hin) as [Hreader _]. exact Hreader.
Defined.

(** X18 at [GET /abcdef.go] with a document page that breaks off: status
    200, and the error page after the partial page. *)
Lemma X18_witness :
  let st := final (@server.StaticDocument Faults.breakingOff _ _ _ tt s0 (get "abcdef.go" [])) in
  responded st StatusOK
  /\ body (w st) =
       "<!DOCTYPE html>" ++ "web/error.html" ++ "500 Internal Server Error"
         ++ "template: document.html: execution failed".
Proof.
  destruct (X18_template_error_after_output (H0 := Faults.breakingOff) tt s0
              (get "abcdef.go" []) hello "web/document.html" "web/error.html"
              "<pre class=go>package main</pre>" "pre{}" ["<!DOCTYPE html>"]
              (errorString "template: document.html: execution failed")
              (or_introl eq_refl) eq_refl) as (Hstatus & _ & Hbody).
  - discriminate.
  - reflexivity.
  - reflexivity.
  - reflexivity.
  - reflexivity.
  - split; [exact Hstatus | exact Hbody].
Defined.

(** X19 at [GET /abc]. *)
Lemma X19_witness :
  body (w (final (server.StaticDocument resources s0 (get "abc" [])))) =
    "web/error.html" ++ "400 Bad Request" ++ "id is of length 3, should be 6".
Proof.
  destruct (X19_html_error_pages resources s0 (get "abc" []) "web/error.html" eq_refl)
    as (Hinvalid & _).
  apply Hinvalid. intros [Hlen|Hin].
  - vm_compute in Hlen. discriminate Hlen.
  - vm_compute in Hin. intuition discriminate.
Defined.

(** X20 at [GET /abcdef] with the document page missing. *)
Lemma X20_witness :
  let st := final (@server.StaticDocument Faults.errorPageOnly _ _ _ tt s0 (get "abcdef" [])) in
  responded st StatusInternalServerError
  /\ body (w st) =
       "web/error.html" ++ "500 Internal Server Error"
         ++ "template: pattern matches no files: web/document.html".
Proof.
  destruct (X20_html_rendering_failures (H0 := Faults.errorPageOnly) tt s0 (get "abcdef" [])
              "web/error.html" hello eq_refl (or_introl eq_refl) eq_refl) as (Hpage & _).
  destruct (Hpage (Faults.missing "web/document.html") eq_refl) as (Hstatus & Hbody & _).
  split; [exact Hstatus | exact Hbody].
Defined.

(** X21 at [GET /abcdef?reader=true]. *)
Lemma X21_witness :
  body (w (final (server.StaticDocument resources s0 (get "abcdef" [("reader", "true")])))) =
    "web/reader.html" ++ "<p>package main</p>".
Proof.
  destruct (X21_html_pages resources s0 (get "abcdef" [("reader", "true")]) hello
              "web/reader.html" ["web/reader.html"; "<p>package main</p>"; ""]
              (or_introl eq_refl) eq_refl) as (Hreader & _).
  destruct (Hreader eq_refl eq_refl eq_refl) as (_ & Hbody & _).
  exact Hbody.
Defined.

End MoreRuns.
